(** * xk6-pubsub: the k6 publisher extension for Google Pub/Sub

    A shallow embedding of the two implementations kept in the repository:

    - [Watermill]: [pubsub.go], the publisher built on the watermill
      messaging library ([googlecloud.Publisher]);
    - [Native]: the implementation on the service's own client
      ([cloud.google.com/go/pubsub]).

    Both decode a loosely typed configuration map into [publisherConf]
    with [mapstructure.Decode], default the publish timeout, build the
    client, and forward publish calls to it.  The collaborators that live
    outside the repository (the client library, the identifier generator)
    are an interface ([Backend]) the adapter is parameterised by; every
    call the adapter makes through it is recorded in the world's [calls].
    Process termination ([log.Fatalf]) is an outcome of its own. *)

From Stdlib Require Import ZArith Ascii String List Bool Lia.
From stdpp Require Import base option list strings gmap.

Local Open Scope string_scope.
Local Open Scope Z_scope.
Local Open Scope list_scope.

(** ** Go values *)

Module Go.

(** [error]: the error values that reach this layer.  A nil [error] is
    [None] in [option error]. *)
Inductive error : Type :=
| errorString (s : string)                 (* errors.New(s) *)
| mapstructure_Error (Errors : list string) (* *mapstructure.Error *)
| client_error (text : string).            (* an error made by the client library *)

(** [[]byte(s)]: the bytes of a Go string. *)
Definition bytes_of (s : string) : list Byte.byte := list_byte_of_string s.

(** [string(b)] *)
Definition string_of (b : list Byte.byte) : string := string_of_list_byte b.

(** [len(s)] of a Go string: its number of bytes. *)
Definition len (s : string) : Z := Z.of_nat (String.length s).

(** A [map[string]string]; the nil map is [None]. *)
Definition StringMap : Type := option (gmap string string).

(** The entries a [range] over the map visits: none for the nil map. *)
Definition entries (m : StringMap) : gmap string string :=
  match m with
  | None => ∅
  | Some g => g
  end.

(** Two's complement wrap-around of 64-bit signed arithmetic ([int64],
    and [int] on the 64-bit platforms k6 is built for). *)
Definition wrap64 (z : Z) : Z := (z + 2 ^ 63) mod 2 ^ 64 - 2 ^ 63.

Definition int64_range (z : Z) : Prop := - 2 ^ 63 <= z < 2 ^ 63.

(** [time.Duration]: a count of nanoseconds in an [int64]. *)
Definition Duration : Type := Z.

(** [time.Duration(n)] for [n : int]. *)
Definition time_Duration (n : Z) : Duration := wrap64 n.

Definition time_Second : Duration := 1000000000.

(** [a * b] on [time.Duration]. *)
Definition Duration_mul (a b : Duration) : Duration := wrap64 (a * b).

(** [option.ClientOption]: the one option this repository builds. *)
Inductive ClientOption : Type :=
| WithCredentialsJSON (p : list Byte.byte).

(** [*lib.State] of k6: opaque to the extension, which only tests it
    against nil. *)
Record lib_State : Type := { vuID : N }.

(** The outcome of running a piece of the extension: it returns to its
    caller, or the process is gone ([os.Exit] under [log.Fatalf]). *)
Inductive Outcome (A : Type) : Type :=
| Returned (a : A)
| Exited (code : Z).

Arguments Returned {A} a.
Arguments Exited {A} code.

(** What the standard logger and the diagnostic sink received. *)
Inductive Diagnostic : Type :=
| Fatal_logged (format : string) (err : error)   (* log.Fatalf(format, err) *)
| Reported (err : error) (msg : string).         (* ReportError(err, msg) *)

(** The world a call runs in: the state [env] of everything outside the
    process (service, network, random source), the calls made to the
    client so far, oldest first, and the diagnostics written so far. *)
Record World (Env Call : Type) : Type := mkWorld {
  env : Env;
  calls : list Call;
  diagnostics : list Diagnostic
}.

Arguments mkWorld {Env Call} env calls diagnostics.
Arguments env {Env Call} w.
Arguments calls {Env Call} w.
Arguments diagnostics {Env Call} w.

(** Computations of the extension: state passing over the world, cut
    short when the process exits. *)
Definition M (Env Call A : Type) : Type :=
  World Env Call → Outcome A * World Env Call.

Definition ret {Env Call A} (a : A) : M Env Call A :=
  fun w => (Returned a, w).

Definition bind {Env Call A B} (m : M Env Call A) (k : A → M Env Call B)
  : M Env Call B :=
  fun w =>
    match m w with
    | (Returned a, w') => k a w'
    | (Exited c, w') => (Exited c, w')
    end.

(** A call through the interface of a collaborator: [step] is what the
    outside does with it, [c] is its record in [calls]. *)
Definition call {Env Call A} (c : Call) (step : Env → A * Env) : M Env Call A :=
  fun w =>
    let (a, e) := step (env w) in
    (Returned a, mkWorld e (calls w ++ [c]) (diagnostics w)).

(** A library routine that touches the outside state without contacting
    the client (the random source of the identifier generator). *)
Definition ambient {Env Call A} (step : Env → A * Env) : M Env Call A :=
  fun w =>
    let (a, e) := step (env w) in
    (Returned a, mkWorld e (calls w) (diagnostics w)).

(** [log.Fatalf(format, err)]: the message goes to the standard logger,
    then [os.Exit(1)]; nothing after it runs. *)
Definition log_Fatalf {Env Call A} (format : string) (err : error) : M Env Call A :=
  fun w =>
    (Exited 1, mkWorld (env w) (calls w) (diagnostics w ++ [Fatal_logged format err])).

(** Modelled from the spec: [ReportError], which both implementations
    call and which is not among the source files.  The spec has it write
    to a diagnostic sink as a side channel that does not change control
    flow: it records the error with its message and returns. *)
Definition ReportError {Env Call} (err : error) (msg : string) : M Env Call unit :=
  fun w =>
    (Returned tt, mkWorld (env w) (calls w) (diagnostics w ++ [Reported err msg])).

End Go.

Export Go.

Notation "'do' x <- m ; k" := (bind m (fun x => k))
  (at level 10, x name, m at level 100, k at level 200).

(** ** The configuration and its decoder

    [github.com/mitchellh/mapstructure] at v1.1.2, the version [go.mod]
    requires, as [Decode] drives it: no tags, no decode hook,
    [WeaklyTypedInput], [ZeroFields] and [ErrorUnused] off. *)

Module Mapstructure.

(** A value of the configuration map, [interface{}], as the JavaScript
    runtime of k6 exports it: [null] and [undefined] are nil, a number
    without a fractional part is an [int64], any other number a
    [float64], and arrays, objects and functions are of kinds no field
    of the configuration takes.  A float is represented by its
    conversion [int64(f)], the only thing the decoder reads of it. *)
Inductive value : Type :=
| VNil
| VBool (b : bool)
| VInt (n : Z)
| VFloat (int64_of : Z)
| VString (s : string)
| VOther (kind : string).

(** [map[string]interface{}] with the order in which a [range] over the
    map visits its entries (Go leaves that order open, so it is part of
    the input). *)
Definition Config : Type := list (string * value).

Definition byte_of (c : ascii) : Z := Z.of_N (N_of_ascii c).

(** The ASCII step of [strings.EqualFold]: the runes are equal, or the
    smaller one is an upper-case letter and the larger one its lower
    case. *)
Definition fold_ascii (sr tr : ascii) : bool :=
  let a := Z.min (byte_of sr) (byte_of tr) in
  let b := Z.max (byte_of sr) (byte_of tr) in
  (a =? b) || ((65 <=? a) && (a <=? 90) && (b =? a + 32)).

(** The runes outside ASCII whose simple case folding reaches an ASCII
    letter: U+212A KELVIN SIGN (UTF-8 E2 84 AA) folds to [k], and U+017F
    LATIN SMALL LETTER LONG S (UTF-8 C5 BF) folds to [s]. *)
Definition is_k (tr : ascii) : bool := (byte_of tr =? 75) || (byte_of tr =? 107).
Definition is_s (tr : ascii) : bool := (byte_of tr =? 83) || (byte_of tr =? 115).

(** [strings.EqualFold(s, t)] for a [t] made of ASCII bytes, which the
    field names of [publisherConf] are.  [s] is any byte string: a byte
    below 0x80 is a rune of its own, and of the longer runes only the two
    above can match an ASCII rune of [t]. *)
Fixpoint EqualFold (s t : string) : bool :=
  match t, s with
  | EmptyString, EmptyString => true
  | EmptyString, String _ _ => false
  | String _ _, EmptyString => false
  | String tr t', String sr s' =>
      if byte_of sr <? 128 then fold_ascii sr tr && EqualFold s' t'
      else
        match s with
        | String "226" (String "132" (String "170" s'')) =>
            is_k tr && EqualFold s'' t'
        | String "197" (String "191" s'') =>
            is_s tr && EqualFold s'' t'
        | _ => false
        end
  end.

(** [dataVal.MapIndex(reflect.ValueOf(fieldName))] *)
Fixpoint MapIndex (fieldName : string) (dataVal : Config) : option value :=
  match dataVal with
  | [] => None
  | (k, v) :: rest => if String.eqb k fieldName then Some v else MapIndex fieldName rest
  end.

(** The slower search of [decodeStructFromMap]: the first key, in the
    order of the range, that is equal to the field name under case
    folding. *)
Fixpoint foldSearch (fieldName : string) (dataVal : Config) : option value :=
  match dataVal with
  | [] => None
  | (mK, v) :: rest =>
      if EqualFold mK fieldName then Some v else foldSearch fieldName rest
  end.

(** The map entry a field is decoded from: the key equal to the field
    name, else a key equal to it under case folding, else none, and the
    field is left alone. *)
Definition rawMapVal (fieldName : string) (dataVal : Config) : option value :=
  match MapIndex fieldName dataVal with
  | Some v => Some v
  | None => foldSearch fieldName dataVal
  end.

(** [decodeString], [decodeInt] and [decodeBool] without
    [WeaklyTypedInput]: [None] is the error
    "expected type ..., got unconvertible type ...". *)
Definition decodeString (data : value) : option string :=
  match data with
  | VString s => Some s
  | _ => None
  end.

Definition decodeInt (data : value) : option Z :=
  match data with
  | VInt n => Some (wrap64 n)
  | VFloat i => Some (wrap64 i)
  | _ => None
  end.

Definition decodeBool (data : value) : option bool :=
  match data with
  | VBool b => Some b
  | _ => None
  end.

(** [Decoder.decode]: nil input sets nothing and is no error; otherwise
    the decoder of the field's kind runs. *)
Definition decode {A : Type} (dec : value → option A) (input : value) (outVal : A)
  : A * bool :=
  match input with
  | VNil => (outVal, true)
  | _ =>
      match dec input with
      | Some x => (x, true)
      | None => (outVal, false)
      end
  end.

(** One round of the loop over the fields in [decodeStructFromMap]: a
    field without an entry is skipped, a failed field adds its name to
    [errors] and the loop goes on. *)
Definition decodeField {A : Type} (fieldName : string) (dec : value → option A)
    (dataVal : Config) (outVal : A) (errors : list string) : A * list string :=
  match rawMapVal fieldName dataVal with
  | None => (outVal, errors)
  | Some input =>
      let (x, ok) := decode dec input outVal in
      (x, if ok then errors else errors ++ [fieldName])
  end.

End Mapstructure.

Export Mapstructure.

(** [publisherConf]: the publisher client configuration; all parameters
    are optional. *)
Record publisherConf : Type := mkConf {
  ProjectID : string;
  Credentials : string;
  PublishTimeout : Z;
  Debug : bool; Trace : bool;
  DoNotCreateTopicIfMissing : bool
}.

(** [&publisherConf{}] *)
Definition zeroConf : publisherConf := mkConf "" "" 0 false false false.

(** The names [mapstructure] matches keys against: the field names, as
    the struct has no tags. *)
Definition fieldNames : list string :=
  ["ProjectID"; "Credentials"; "PublishTimeout"; "Debug"; "Trace";
   "DoNotCreateTopicIfMissing"].

(** [mapstructure.Decode(config, cnf)] at [*publisherConf]: the record as
    the decoder leaves it, and the error it returns, which lists the
    fields that failed. *)
Definition Decode (config : Config) (cnf : publisherConf)
  : publisherConf * option error :=
  let errors := [] in
  let (f1, errors) := decodeField "ProjectID" decodeString config (ProjectID cnf) errors in
  let (f2, errors) := decodeField "Credentials" decodeString config (Credentials cnf) errors in
  let (f3, errors) := decodeField "PublishTimeout" decodeInt config (PublishTimeout cnf) errors in
  let (f4, errors) := decodeField "Debug" decodeBool config (Debug cnf) errors in
  let (f5, errors) := decodeField "Trace" decodeBool config (Trace cnf) errors in
  let (f6, errors) :=
    decodeField "DoNotCreateTopicIfMissing" decodeBool config
      (DoNotCreateTopicIfMissing cnf) errors in
  (mkConf f1 f2 f3 f4 f5 f6,
   match errors with
   | [] => None
   | _ => Some (mapstructure_Error errors)
   end).

(** The publish timeout after the defaulting step of [Publisher]:
    [if cnf.PublishTimeout < 1 { cnf.PublishTimeout = 5 }]. *)
Definition defaultTimeout (cnf : publisherConf) : publisherConf :=
  if PublishTimeout cnf <? 1
  then mkConf (ProjectID cnf) (Credentials cnf) 5 (Debug cnf) (Trace cnf)
         (DoNotCreateTopicIfMissing cnf)
  else cnf.

(** "The values for the recognized fields are well-typed": the entry a
    field is decoded from, if there is one, is nil or of the field's
    kind. *)
Definition accepts {A : Type} (dec : value → option A) (raw : option value) : bool :=
  match raw with
  | None => true
  | Some VNil => true
  | Some v => match dec v with Some _ => true | None => false end
  end.

Definition well_typed (config : Config) : bool :=
  accepts decodeString (rawMapVal "ProjectID" config)
  && accepts decodeString (rawMapVal "Credentials" config)
  && accepts decodeInt (rawMapVal "PublishTimeout" config)
  && accepts decodeBool (rawMapVal "Debug" config)
  && accepts decodeBool (rawMapVal "Trace" config)
  && accepts decodeBool (rawMapVal "DoNotCreateTopicIfMissing" config).

(** A key no field of the configuration is decoded from. *)
Definition unrecognized (k : string) : bool :=
  forallb (fun f => negb (EqualFold k f)) fieldNames.

(** ** [pubsub.go]: the publisher on watermill *)

Module Watermill.

(** [PubSub], the extension object: [struct{}]. *)
Inductive PubSub : Type := new_PubSub.

(** [*googlecloud.Publisher]: a handle owned by the client library. *)
Record googlecloud_Publisher : Type := { publisher_id : N }.

(** [watermill.NewStdLogger(debug, trace)] *)
Record StdLoggerAdapter : Type := NewStdLogger { debug : bool; trace : bool }.

Inductive Marshaler_t : Type := DefaultMarshalerUnmarshaler.

(** [googlecloud.PublisherConfig], the fields [Publisher] sets. *)
Module PublisherConfig.
Record t : Type := mk {
  ProjectID : string;
  Marshaler : Marshaler_t;
  PublishTimeout : Duration;
  DoNotCreateTopicIfMissing : bool;
  ClientOptions : list ClientOption
}.
End PublisherConfig.

(** [message.Message], the exported fields. *)
Record Message : Type := mkMessage {
  UUID : string;
  Metadata : StringMap;
  Payload : list Byte.byte
}.

(** [context.Context] as far as [lib.GetState] reads it: the value
    stored under k6's state key. *)
Record Context : Type := { ctxKeyState : option lib_State }.

(** [lib.GetState(ctx)] *)
Definition lib_GetState (ctx : Context) : option lib_State := ctxKeyState ctx.

(** The calls to the client library. *)
Inductive Call : Type :=
| NewPublisher_call (config : PublisherConfig.t) (logger : StdLoggerAdapter)
| Publish_call (p : googlecloud_Publisher) (topic : string) (messages : list Message).

(** What lives outside the repository. *)
Class Backend : Type := {
  Env : Type;
  (* googlecloud.NewPublisher(config, logger) *)
  googlecloud_NewPublisher :
    PublisherConfig.t → StdLoggerAdapter → Env →
    (googlecloud_Publisher * option error) * Env;
  (* p.Publish(topic, messages...) *)
  Publisher_Publish :
    googlecloud_Publisher → string → list Message → Env → option error * Env;
  (* watermill.NewShortUUID() *)
  watermill_NewShortUUID : Env → string * Env
}.

(** [message.NewMessage(uuid, payload)]: the metadata is a fresh, empty
    map. *)
Definition message_NewMessage (uuid : string) (payload : list Byte.byte) : Message :=
  mkMessage uuid (Some ∅) payload.

(** [withCredentials] explicitly sets up the credentials as an
    [option.ClientOption]. *)
Definition withCredentials (credentials : string) : list ClientOption :=
  let opt := [] in
  if 0 <? len credentials
  then opt ++ [WithCredentialsJSON (bytes_of credentials)]
  else opt.

(** [createMessage] creates a [Message] including metadata. *)
Definition createMessage (uuid : string) (payload : list Byte.byte)
    (metadata : StringMap) : Message :=
  {| UUID := uuid; Metadata := metadata; Payload := payload |}.

Section Adapter.
Context {B : Backend}.

Definition W : Type := World Env Call.

(** The configuration [Publisher] hands to [googlecloud.NewPublisher]. *)
Definition publisherConfig (cnf : publisherConf) : PublisherConfig.t :=
  {| PublisherConfig.ProjectID := ProjectID cnf;
     PublisherConfig.Marshaler := DefaultMarshalerUnmarshaler;
     PublisherConfig.PublishTimeout :=
       Duration_mul time_Second (time_Duration (PublishTimeout cnf));
     PublisherConfig.DoNotCreateTopicIfMissing := DoNotCreateTopicIfMissing cnf;
     PublisherConfig.ClientOptions := withCredentials (Credentials cnf) |}.

(** [Publisher] is the constructor. *)
Definition Publisher (ps : PubSub) (config : Config) : M Env Call googlecloud_Publisher :=
  let cnf := zeroConf in
  let (cnf, err) := Decode config cnf in
  do _ <- match err with
          | Some e => log_Fatalf "xk6-pubsub: unable to read publisher config: %v" e
          | None => ret tt
          end;
  let cnf := defaultTimeout cnf in
  let logger := NewStdLogger (Debug cnf) (Trace cnf) in
  do r <- call (NewPublisher_call (publisherConfig cnf) logger)
               (googlecloud_NewPublisher (publisherConfig cnf) logger);
  let (client, err) := r in
  do _ <- match err with
          | Some e => log_Fatalf "xk6-pubsub: unable to init publisher: %v" e
          | None => ret tt
          end;
  ret client.

(** [publishMessage] publishes a message to the topic with the given
    publisher. *)
Definition publishMessage (ctx : Context) (p : googlecloud_Publisher)
    (topic : string) (message : Message) : M Env Call (option error) :=
  let state := lib_GetState ctx in
  match state with
  | None =>
      let err := errorString "xk6-pubsub: state is nil" in
      do _ <- ReportError err "cannot determine state";
      ret (Some err)
  | Some _ =>
      do err <- call (Publish_call p topic [message])
                     (Publisher_Publish p topic [message]);
      match err with
      | Some e =>
          do _ <- ReportError e "xk6-pubsub: unable to publish message";
          ret (Some e)
      | None => ret None
      end
  end.

(** [Publish]: the message is a string, converted to bytes. *)
Definition Publish (ps : PubSub) (ctx : Context) (p : googlecloud_Publisher)
    (topic msg : string) : M Env Call (option error) :=
  do uuid <- ambient watermill_NewShortUUID;
  let newMessage := message_NewMessage uuid (bytes_of msg) in
  publishMessage ctx p topic newMessage.

(** [PublishWithAttributes]: the attributes are set as metadata. *)
Definition PublishWithAttributes (ps : PubSub) (ctx : Context)
    (p : googlecloud_Publisher) (topic msg : string) (attributes : StringMap)
  : M Env Call (option error) :=
  do uuid <- ambient watermill_NewShortUUID;
  let newMessage := createMessage uuid (bytes_of msg) attributes in
  publishMessage ctx p topic newMessage.

End Adapter.

End Watermill.

(** ** The publisher on the native client *)

Module Native.

(** [*lib.State] as the virtual user gives it: [vu.State()]. *)
Record VU : Type := { State : option lib_State }.

(** [PubSub], the module instance. *)
Record PubSub : Type := { vu : VU }.

(** [*pubsub.Client] *)
Record Client : Type := { client_id : N }.

(** [*pubsub.Topic], made by [p.Topic(id)] without contacting the
    service. *)
Record Topic : Type := { topic_client : Client; topic_id : string }.

Definition Client_Topic (p : Client) (id : string) : Topic :=
  {| topic_client := p; topic_id := id |}.

(** [*pubsub.PublishResult] *)
Record PublishResult : Type := { result_id : N }.

(** [pubsub.Message], the fields a publisher may set and the
    server-assigned [ID]. *)
Record Message : Type := mkMessage {
  ID : string;
  Data : list Byte.byte;
  Attributes : StringMap;
  OrderingKey : string
}.

Inductive CallOption : Type :=
| gax_WithTimeout (t : Duration).

(** [pubsub.ClientConfig] with its [PublisherCallOptions.Publish]. *)
Record ClientConfig : Type := {
  PublisherCallOptions_Publish : list CallOption
}.

(** The calls to the client library. *)
Inductive Call : Type :=
| NewClientWithConfig_call (projectID : string) (config : ClientConfig)
    (opts : list ClientOption)
| Topic_Publish_call (t : Topic) (msg : Message)
| Get_call (res : PublishResult).

(** What lives outside the repository. *)
Class Backend : Type := {
  Env : Type;
  (* pubsub.NewClientWithConfig(ctx, projectID, config, opts...) *)
  pubsub_NewClientWithConfig :
    string → ClientConfig → list ClientOption → Env →
    (Client * option error) * Env;
  (* t.Publish(ctx, msg) *)
  Topic_Publish : Topic → Message → Env → PublishResult * Env;
  (* res.Get(ctx): the server's message ID, and the error *)
  PublishResult_Get : PublishResult → Env → (string * option error) * Env
}.

Section Adapter.
Context {B : Backend}.

Definition W : Type := World Env Call.

(** [Publisher] is the constructor; the [context.Background()] it passes
    on carries nothing. *)
Definition Publisher (ps : PubSub) (config : Config) : M Env Call Client :=
  let cnf := zeroConf in
  let (cnf, err) := Decode config cnf in
  do _ <- match err with
          | Some e => log_Fatalf "xk6-pubsub: unable to read publisher config: %v" e
          | None => ret tt
          end;
  let cnf := defaultTimeout cnf in
  let clientConfig :=
    {| PublisherCallOptions_Publish :=
         [gax_WithTimeout
            (Duration_mul (time_Duration (PublishTimeout cnf)) time_Second)] |} in
  let opt := [] in
  let opt :=
    if 0 <? len (Credentials cnf)
    then opt ++ [WithCredentialsJSON (bytes_of (Credentials cnf))]
    else opt in
  do r <- call (NewClientWithConfig_call (ProjectID cnf) clientConfig opt)
               (pubsub_NewClientWithConfig (ProjectID cnf) clientConfig opt);
  let (client, err) := r in
  do _ <- match err with
          | Some e => log_Fatalf "xk6-pubsub: unable to init publisher: %v" e
          | None => ret tt
          end;
  ret client.

(** [publishMessage] publishes a message to the topic with the given
    client; [attributes] is the variadic parameter. *)
Definition publishMessage (p : Client) (topic : string) (data : list Byte.byte)
    (state : option lib_State) (attributes : list StringMap)
  : M Env Call (option error) :=
  match state with
  | None =>
      let err := errorString "xk6-pubsub: state is nil" in
      do _ <- ReportError err "cannot determine state";
      ret (Some err)
  | Some _ =>
      let msg := mkMessage "" data None "" in
      let msg :=
        match attributes with
        | a :: _ => mkMessage (ID msg) (Data msg) a (OrderingKey msg)
        | [] => msg
        end in
      do res <- call (Topic_Publish_call (Client_Topic p topic) msg)
                     (Topic_Publish (Client_Topic p topic) msg);
      do r <- call (Get_call res) (PublishResult_Get res);
      let (_, err) := r in
      match err with
      | Some e =>
          do _ <- ReportError e "xk6-pubsub: unable to publish message";
          ret (Some e)
      | None => ret None
      end
  end.

(** [Publish]: the message is a string, converted to bytes. *)
Definition Publish (ps : PubSub) (p : Client) (topic msg : string)
  : M Env Call (option error) :=
  publishMessage p topic (bytes_of msg) (State (vu ps)) [].

(** [PublishWithAttributes]: the attributes are set as metadata. *)
Definition PublishWithAttributes (ps : PubSub) (p : Client) (topic msg : string)
    (attributes : StringMap) : M Env Call (option error) :=
  publishMessage p topic (bytes_of msg) (State (vu ps)) [attributes].

End Adapter.

End Native.

(** ** Shorthands for the statements *)

(** The client options of the native [Publisher], which builds them in
    place. *)
Definition credentialOptions (credentials : string) : list ClientOption :=
  if 0 <? len credentials then [WithCredentialsJSON (bytes_of credentials)] else [].

(** The diagnostics a publish call leaves for the result [r] of the
    client. *)
Definition publish_report (r : option error) : list Diagnostic :=
  match r with
  | Some e => [Reported e "xk6-pubsub: unable to publish message"]
  | None => []
  end.

Definition no_state_error : error := errorString "xk6-pubsub: state is nil".

(** The message the native [publishMessage] builds. *)
Definition native_message (data : list Byte.byte) (attributes : list StringMap)
  : Native.Message :=
  match attributes with
  | a :: _ => Native.mkMessage "" data a ""
  | [] => Native.mkMessage "" data None ""
  end.

(** ** Mock collaborators

    A transport that counts its round trips and can be switched to fail,
    and an identifier generator that hands out a given supply. *)

Module Mock.

Record MockEnv : Type := mkEnv {
  ids : list string;
  reachable : bool;
  round_trips : nat
}.

Definition trip (e : MockEnv) : MockEnv :=
  mkEnv (ids e) (reachable e) (S (round_trips e)).

Definition outcome_of (e : MockEnv) : option error :=
  if reachable e then None else Some (client_error "unavailable").

Definition next_id (e : MockEnv) : string * MockEnv :=
  match ids e with
  | [] => ("", e)
  | i :: rest => (i, mkEnv rest (reachable e) (round_trips e))
  end.

Definition watermill : Watermill.Backend :=
  {| Watermill.Env := MockEnv;
     Watermill.googlecloud_NewPublisher := fun config logger e =>
       ((Watermill.Build_googlecloud_Publisher 1, outcome_of e), trip e);
     Watermill.Publisher_Publish := fun p topic messages e =>
       (outcome_of e, trip e);
     Watermill.watermill_NewShortUUID := next_id |}.

Definition native : Native.Backend :=
  {| Native.Env := MockEnv;
     Native.pubsub_NewClientWithConfig := fun projectID config opts e =>
       ((Native.Build_Client 1, outcome_of e), trip e);
     Native.Topic_Publish := fun t msg e =>
       (Native.Build_PublishResult (N.of_nat (round_trips e)), e);
     Native.PublishResult_Get := fun res e =>
       (("server-id", outcome_of e), trip e) |}.

Definition up : MockEnv := mkEnv ["id-1"; "id-2"] true 0.
Definition down : MockEnv := mkEnv ["id-1"; "id-2"] false 0.

Definition world {Call : Type} (e : MockEnv) : World MockEnv Call := mkWorld e [] [].

Definition vu_ctx : Watermill.Context :=
  {| Watermill.ctxKeyState := Some {| vuID := 7 |} |}.
Definition init_ctx : Watermill.Context := {| Watermill.ctxKeyState := None |}.

Definition vu_ps : Native.PubSub :=
  {| Native.vu := {| Native.State := Some {| vuID := 7 |} |} |}.
Definition init_ps : Native.PubSub := {| Native.vu := {| Native.State := None |} |}.

End Mock.

(** ** Shorthands for the further statements *)

(** A string of ASCII bytes, and a string with its upper-case ASCII
    letters lowered, as a list of byte values. *)
Definition is_ascii (s : string) : bool :=
  forallb (fun c => byte_of c <? 128) (list_ascii_of_string s).

Definition lowerZ (b : Z) : Z := if (65 <=? b) && (b <=? 90) then b + 32 else b.

Definition lower (s : string) : list Z :=
  List.map (fun c => lowerZ (byte_of c)) (list_ascii_of_string s).

(** No field has to choose between keys by the order of the range: the
    map has a key equal to the field name, or at most one key equal to
    it under case folding. *)
Definition unambiguous (config : Config) : Prop :=
  ∀ f, f ∈ fieldNames →
    is_Some (MapIndex f config)
    ∨ (∀ k1 v1 k2 v2, (k1, v1) ∈ config → (k2, v2) ∈ config →
       EqualFold k1 f = true → EqualFold k2 f = true → k1 = k2).

(** ** The model on concrete inputs *)

Example decode_camel :
  Decode [("projectId", VString "p"); ("publishTimeout", VInt 30)] zeroConf
  = (mkConf "p" "" 30 false false false, None).
Proof. reflexivity. Qed.

Example decode_snake :
  Decode [("project_id", VString "p"); ("publish_timeout", VInt 30)] zeroConf
  = (zeroConf, None).
Proof. reflexivity. Qed.

Example decode_bad :
  Decode [("publishTimeout", VString "30"); ("debug", VInt 1)] zeroConf
  = (zeroConf, Some (mapstructure_Error ["PublishTimeout"; "Debug"])).
Proof. reflexivity. Qed.

Example decode_kelvin :
  EqualFold (String "226" (String "132" (String "170" "ey"))) "Key" = true.
Proof. reflexivity. Qed.


Example duration_in_range :
  Duration_mul time_Second (time_Duration 9223372036) = 9223372036000000000.
Proof. reflexivity. Qed.

Example duration_wraps :
  Duration_mul time_Second (time_Duration 9223372037) = -9223372036709551616.
Proof. reflexivity. Qed.

Example mock_publish_hello :
  Watermill.PublishWithAttributes (B := Mock.watermill) Watermill.new_PubSub
    Mock.vu_ctx (Watermill.Build_googlecloud_Publisher 1) "topic-a" "hello"
    (Some {["k" := "v"]}) (Mock.world Mock.up)
  = (Returned None,
     mkWorld (Mock.mkEnv ["id-2"] true 1)
       [Watermill.Publish_call (Watermill.Build_googlecloud_Publisher 1) "topic-a"
          [Watermill.mkMessage "id-1" (Some {["k" := "v"]}) (bytes_of "hello")]]
       []).
Proof. reflexivity. Qed.

Example mock_native_down :
  Native.Publish (B := Mock.native) Mock.vu_ps (Native.Build_Client 1) "topic-a" "hello"
    (Mock.world Mock.down)
  = (Returned (Some (client_error "unavailable")),
     mkWorld (Mock.mkEnv ["id-1"; "id-2"] false 1)
       [Native.Topic_Publish_call (Native.Client_Topic (Native.Build_Client 1) "topic-a")
          (Native.mkMessage "" (bytes_of "hello") None "");
        Native.Get_call (Native.Build_PublishResult 0)]
       [Reported (client_error "unavailable") "xk6-pubsub: unable to publish message"]).
Proof. reflexivity. Qed.

(** ** Arithmetic of durations *)

Lemma wrap64_id (z : Z) : int64_range z → wrap64 z = z.
Proof.
  unfold int64_range, wrap64. intros Hz.
  rewrite Z.mod_small; lia.
Qed.

(** Up to 9223372036 seconds the conversion to nanoseconds is exact;
    [duration_wraps] is the first count past it. *)
Lemma seconds_exact (n : Z) :
  0 <= n <= 9223372036 →
  Duration_mul time_Second (time_Duration n) = n * 1000000000
  ∧ Duration_mul (time_Duration n) time_Second = n * 1000000000.
Proof.
  intros Hn. unfold Duration_mul, time_Duration, time_Second.
  rewrite (wrap64_id n) by (unfold int64_range; lia).
  split; rewrite wrap64_id; unfold int64_range; lia.
Qed.

(** ** The decoder *)

Lemma EqualFold_fieldNames (f : string) : f ∈ fieldNames → EqualFold f f = true.
Proof.
  unfold fieldNames. intros Hf.
  repeat (apply elem_of_cons in Hf as [-> | Hf]; [reflexivity |]).
  by apply elem_of_nil in Hf.
Qed.

Lemma unrecognized_EqualFold (k f : string) :
  unrecognized k = true → f ∈ fieldNames → EqualFold k f = false.
Proof.
  unfold unrecognized. rewrite forallb_forall. intros Hk Hf.
  apply list_elem_of_In in Hf. specialize (Hk f Hf).
  by apply negb_true_iff in Hk.
Qed.

Lemma EqualFold_false_neq (k f : string) :
  f ∈ fieldNames → EqualFold k f = false → String.eqb k f = false.
Proof.
  intros Hf Hk. apply String.eqb_neq. intros ->.
  rewrite (EqualFold_fieldNames f Hf) in Hk. discriminate.
Qed.

Lemma MapIndex_skip (f k : string) (v : value) (l1 l2 : Config) :
  String.eqb k f = false → MapIndex f (l1 ++ (k, v) :: l2) = MapIndex f (l1 ++ l2).
Proof.
  intros Hk. induction l1 as [| [k' v'] l1 IH]; simpl.
  - by rewrite Hk.
  - by rewrite IH.
Qed.

Lemma foldSearch_skip (f k : string) (v : value) (l1 l2 : Config) :
  EqualFold k f = false → foldSearch f (l1 ++ (k, v) :: l2) = foldSearch f (l1 ++ l2).
Proof.
  intros Hk. induction l1 as [| [k' v'] l1 IH]; simpl.
  - by rewrite Hk.
  - by rewrite IH.
Qed.

Lemma rawMapVal_skip (f k : string) (v : value) (l1 l2 : Config) :
  f ∈ fieldNames → EqualFold k f = false →
  rawMapVal f (l1 ++ (k, v) :: l2) = rawMapVal f (l1 ++ l2).
Proof.
  intros Hf Hk. unfold rawMapVal.
  rewrite MapIndex_skip by by apply EqualFold_false_neq.
  by rewrite foldSearch_skip.
Qed.

(** A field no key matches has no entry. *)
Lemma rawMapVal_absent (f : string) (config : Config) :
  f ∈ fieldNames →
  (∀ k v, (k, v) ∈ config → EqualFold k f = false) →
  rawMapVal f config = None.
Proof.
  intros Hf Hall. unfold rawMapVal.
  assert (MapIndex f config = None ∧ foldSearch f config = None) as [-> ->]; [| done].
  induction config as [| [k v] config IH]; [done |].
  assert (EqualFold k f = false) as Hk by (apply (Hall k v); left).
  simpl. rewrite Hk, (EqualFold_false_neq k f Hf Hk).
  apply IH. intros k' v' Hin. apply (Hall k' v'). by right.
Qed.

Lemma decodeField_fst {A : Type} (f : string) (dec : value → option A)
    (config : Config) (out : A) (errs : list string) :
  (decodeField f dec config out errs).1
  = match rawMapVal f config with
    | None => out
    | Some v => (decode dec v out).1
    end.
Proof.
  unfold decodeField. destruct (rawMapVal f config) as [v |]; [| done].
  by destruct (decode dec v out).
Qed.

Lemma decodeField_snd {A : Type} (f : string) (dec : value → option A)
    (config : Config) (out : A) (errs : list string) :
  (decodeField f dec config out errs).2
  = errs ++ (if accepts dec (rawMapVal f config) then [] else [f]).
Proof.
  unfold decodeField, accepts, decode.
  destruct (rawMapVal f config) as [v |]; simpl; [| by rewrite app_nil_r].
  destruct v; simpl; rewrite ?app_nil_r; try done;
    match goal with |- context [dec ?x] => destruct (dec x) end;
    simpl; by rewrite ?app_nil_r.
Qed.

(** The decoder reads the map only through the entries of the six
    fields. *)
Lemma Decode_ext (c1 c2 : Config) (cnf : publisherConf) :
  (∀ f, f ∈ fieldNames → rawMapVal f c1 = rawMapVal f c2) →
  Decode c1 cnf = Decode c2 cnf.
Proof.
  intros H. unfold Decode, decodeField.
  rewrite !H by (unfold fieldNames; set_solver).
  reflexivity.
Qed.

Lemma Decode_PublishTimeout (config : Config) (cnf : publisherConf) :
  PublishTimeout (Decode config cnf).1
  = match rawMapVal "PublishTimeout" config with
    | None => PublishTimeout cnf
    | Some v => (decode decodeInt v (PublishTimeout cnf)).1
    end.
Proof.
  rewrite <- decodeField_fst with (errs := (decodeField "Credentials" decodeString config
    (Credentials cnf) (decodeField "ProjectID" decodeString config (ProjectID cnf) []).2).2).
  unfold Decode.
  repeat match goal with
         | |- context [let (_, _) := ?d in _] => destruct d; simpl
         end.
  reflexivity.
Qed.

Lemma Decode_Credentials (config : Config) (cnf : publisherConf) :
  Credentials (Decode config cnf).1
  = match rawMapVal "Credentials" config with
    | None => Credentials cnf
    | Some v => (decode decodeString v (Credentials cnf)).1
    end.
Proof.
  rewrite <- decodeField_fst
    with (errs := (decodeField "ProjectID" decodeString config (ProjectID cnf) []).2).
  unfold Decode.
  repeat match goal with
         | |- context [let (_, _) := ?d in _] => destruct d; simpl
         end.
  reflexivity.
Qed.

(** The decoder fails exactly when the entry of some field is neither
    nil nor of the field's kind. *)
Lemma Decode_error_iff (config : Config) (cnf : publisherConf) :
  (Decode config cnf).2 = None ↔ well_typed config = true.
Proof.
  unfold Decode, well_typed.
  repeat match goal with
         | |- context [let (_, _) := decodeField ?f ?d ?c ?o ?e in _] =>
             let H := fresh "H" in
             pose proof (decodeField_snd f d c o e) as H;
             destruct (decodeField f d c o e); simpl in H; subst
         end.
  simpl.
  repeat match goal with
         | |- context [accepts ?d ?r] => destruct (accepts d r); simpl
         end;
    split; intros; try done.
Qed.

(** ** Runs of the two implementations *)

Section Runs.
Context {WB : Watermill.Backend} {NB : Native.Backend}.

Lemma withCredentials_options (credentials : string) :
  Watermill.withCredentials credentials = credentialOptions credentials.
Proof. unfold Watermill.withCredentials, credentialOptions. by case_match. Qed.

Lemma Watermill_Publisher_undecoded ps config cnf e (w : Watermill.W) :
  Decode config zeroConf = (cnf, Some e) →
  Watermill.Publisher ps config w
  = (Exited 1,
     mkWorld (env w) (calls w)
       (diagnostics w
        ++ [Fatal_logged "xk6-pubsub: unable to read publisher config: %v" e])).
Proof. intros H. unfold Watermill.Publisher. rewrite H. reflexivity. Qed.

Lemma Native_Publisher_undecoded ps config cnf e (w : Native.W) :
  Decode config zeroConf = (cnf, Some e) →
  Native.Publisher ps config w
  = (Exited 1,
     mkWorld (env w) (calls w)
       (diagnostics w
        ++ [Fatal_logged "xk6-pubsub: unable to read publisher config: %v" e])).
Proof. intros H. unfold Native.Publisher. rewrite H. reflexivity. Qed.

Lemma Watermill_Publisher_decoded ps config cnf (w : Watermill.W) :
  Decode config zeroConf = (cnf, None) →
  Watermill.Publisher ps config w
  = let cnf' := defaultTimeout cnf in
    let pc := Watermill.publisherConfig cnf' in
    let lg := Watermill.NewStdLogger (Debug cnf') (Trace cnf') in
    let r := Watermill.googlecloud_NewPublisher pc lg (env w) in
    let made := calls w ++ [Watermill.NewPublisher_call pc lg] in
    match r.1.2 with
    | None => (Returned r.1.1, mkWorld r.2 made (diagnostics w))
    | Some e =>
        (Exited 1,
         mkWorld r.2 made
           (diagnostics w ++ [Fatal_logged "xk6-pubsub: unable to init publisher: %v" e]))
    end.
Proof.
  intros H. unfold Watermill.Publisher. rewrite H. cbv zeta.
  unfold bind, ret, call, log_Fatalf. simpl.
  destruct (Watermill.googlecloud_NewPublisher _ _ (env w)) as [[client [e |]] e'];
    reflexivity.
Qed.

Lemma Native_Publisher_decoded ps config cnf (w : Native.W) :
  Decode config zeroConf = (cnf, None) →
  Native.Publisher ps config w
  = let cnf' := defaultTimeout cnf in
    let cc :=
      {| Native.PublisherCallOptions_Publish :=
           [Native.gax_WithTimeout
              (Duration_mul (time_Duration (PublishTimeout cnf')) time_Second)] |} in
    let opt := credentialOptions (Credentials cnf') in
    let r := Native.pubsub_NewClientWithConfig (ProjectID cnf') cc opt (env w) in
    let made := calls w ++ [Native.NewClientWithConfig_call (ProjectID cnf') cc opt] in
    match r.1.2 with
    | None => (Returned r.1.1, mkWorld r.2 made (diagnostics w))
    | Some e =>
        (Exited 1,
         mkWorld r.2 made
           (diagnostics w ++ [Fatal_logged "xk6-pubsub: unable to init publisher: %v" e]))
    end.
Proof.
  intros H. unfold Native.Publisher. rewrite H. cbv zeta.
  unfold bind, ret, call, log_Fatalf, credentialOptions. simpl.
  destruct (Native.pubsub_NewClientWithConfig _ _ _ (env w)) as [[client [e |]] e'];
    reflexivity.
Qed.

Lemma defaultTimeout_fields (cnf : publisherConf) :
  ProjectID (defaultTimeout cnf) = ProjectID cnf
  ∧ Credentials (defaultTimeout cnf) = Credentials cnf
  ∧ Debug (defaultTimeout cnf) = Debug cnf
  ∧ Trace (defaultTimeout cnf) = Trace cnf
  ∧ DoNotCreateTopicIfMissing (defaultTimeout cnf) = DoNotCreateTopicIfMissing cnf.
Proof. unfold defaultTimeout. by case_match. Qed.

Lemma Watermill_publishMessage_no_state ctx p topic m (w : Watermill.W) :
  Watermill.lib_GetState ctx = None →
  Watermill.publishMessage ctx p topic m w
  = (Returned (Some no_state_error),
     mkWorld (env w) (calls w)
       (diagnostics w ++ [Reported no_state_error "cannot determine state"])).
Proof. intros H. unfold Watermill.publishMessage. rewrite H. reflexivity. Qed.

Lemma Watermill_publishMessage_state ctx p topic m st (w : Watermill.W) :
  Watermill.lib_GetState ctx = Some st →
  Watermill.publishMessage ctx p topic m w
  = let r := Watermill.Publisher_Publish p topic [m] (env w) in
    (Returned r.1,
     mkWorld r.2 (calls w ++ [Watermill.Publish_call p topic [m]])
       (diagnostics w ++ publish_report r.1)).
Proof.
  intros H. unfold Watermill.publishMessage. rewrite H.
  unfold bind, ret, call, ReportError. simpl.
  destruct (Watermill.Publisher_Publish p topic [m] (env w)) as [[e |] e']; simpl;
    by rewrite ?app_nil_r.
Qed.

Lemma Native_publishMessage_no_state p topic data attributes (w : Native.W) :
  Native.publishMessage p topic data None attributes w
  = (Returned (Some no_state_error),
     mkWorld (env w) (calls w)
       (diagnostics w ++ [Reported no_state_error "cannot determine state"])).
Proof. reflexivity. Qed.

Lemma Native_publishMessage_state p topic data st attributes (w : Native.W) :
  Native.publishMessage p topic data (Some st) attributes w
  = let t := Native.Client_Topic p topic in
    let msg := native_message data attributes in
    let sent := Native.Topic_Publish t msg (env w) in
    let got := Native.PublishResult_Get sent.1 sent.2 in
    (Returned got.1.2,
     mkWorld got.2
       (calls w ++ [Native.Topic_Publish_call t msg; Native.Get_call sent.1])
       (diagnostics w ++ publish_report got.1.2)).
Proof.
  unfold Native.publishMessage, native_message.
  unfold bind, ret, call, ReportError. cbv zeta.
  destruct attributes as [| a rest]; simpl;
    match goal with
    | |- context [Native.Topic_Publish ?t ?m (env w)] =>
        destruct (Native.Topic_Publish t m (env w)) as [res e1]
    end; simpl;
    destruct (Native.PublishResult_Get res e1) as [[id [e |]] e2]; simpl;
    by rewrite <- ?app_assoc, ?app_nil_r.
Qed.

End Runs.

Lemma credentialOptions_cases (credentials : string) :
  credentialOptions credentials
  = if String.eqb credentials "" then [] else [WithCredentialsJSON (bytes_of credentials)].
Proof.
  unfold credentialOptions, len. destruct credentials as [| c s]; [done |].
  simpl String.length. replace (0 <? Z.of_nat (S (String.length s))) with true; [done |].
  symmetry. apply Z.ltb_lt. lia.
Qed.

Lemma bytes_roundtrip (s : string) : string_of (bytes_of s) = s.
Proof. apply string_of_list_byte_of_string. Qed.

Lemma defaultTimeout_seconds (cnf : publisherConf) :
  (0 < PublishTimeout cnf → PublishTimeout (defaultTimeout cnf) = PublishTimeout cnf)
  ∧ (PublishTimeout cnf <= 0 → PublishTimeout (defaultTimeout cnf) = 5)
  ∧ 1 <= PublishTimeout (defaultTimeout cnf).
Proof.
  unfold defaultTimeout.
  destruct (PublishTimeout cnf <? 1) eqn:Hlt; simpl;
    [apply Z.ltb_lt in Hlt | apply Z.ltb_ge in Hlt]; lia.
Qed.

Lemma rawMapVal_recognized (f : string) (config : Config) :
  f ∈ fieldNames →
  rawMapVal f (List.filter (fun kv => negb (unrecognized kv.1)) config)
  = rawMapVal f config.
Proof.
  intros Hf. unfold rawMapVal.
  assert (MapIndex f (List.filter (fun kv => negb (unrecognized kv.1)) config)
          = MapIndex f config
          ∧ foldSearch f (List.filter (fun kv => negb (unrecognized kv.1)) config)
            = foldSearch f config) as [-> ->]; [| done].
  induction config as [| [k v] config [IH1 IH2]]; [done |].
  simpl. destruct (unrecognized k) eqn:Hk; simpl.
  - pose proof (unrecognized_EqualFold k f Hk Hf) as Hfold.
    by rewrite Hfold, (EqualFold_false_neq k f Hf Hfold).
  - rewrite IH1, IH2. done.
Qed.

Section PublishRuns.
Context {WB : Watermill.Backend} {NB : Native.Backend}.

Lemma Watermill_Publish_state ps ctx st p topic msg (w : Watermill.W) :
  Watermill.lib_GetState ctx = Some st →
  Watermill.Publish ps ctx p topic msg w
  = let generated := Watermill.watermill_NewShortUUID (env w) in
    let m := Watermill.message_NewMessage generated.1 (bytes_of msg) in
    let r := Watermill.Publisher_Publish p topic [m] generated.2 in
    (Returned r.1,
     mkWorld r.2 (calls w ++ [Watermill.Publish_call p topic [m]])
       (diagnostics w ++ publish_report r.1)).
Proof.
  intros Hctx. unfold Watermill.Publish, bind, ambient.
  destruct (Watermill.watermill_NewShortUUID (env w)) as [uuid e].
  by rewrite (Watermill_publishMessage_state ctx p topic _ st).
Qed.

Lemma Watermill_PublishWithAttributes_state ps ctx st p topic msg attributes
    (w : Watermill.W) :
  Watermill.lib_GetState ctx = Some st →
  Watermill.PublishWithAttributes ps ctx p topic msg attributes w
  = let generated := Watermill.watermill_NewShortUUID (env w) in
    let m := Watermill.createMessage generated.1 (bytes_of msg) attributes in
    let r := Watermill.Publisher_Publish p topic [m] generated.2 in
    (Returned r.1,
     mkWorld r.2 (calls w ++ [Watermill.Publish_call p topic [m]])
       (diagnostics w ++ publish_report r.1)).
Proof.
  intros Hctx. unfold Watermill.PublishWithAttributes, bind, ambient.
  destruct (Watermill.watermill_NewShortUUID (env w)) as [uuid e].
  by rewrite (Watermill_publishMessage_state ctx p topic _ st).
Qed.

Lemma Native_Publish_state ps st c topic msg (w : Native.W) :
  Native.State (Native.vu ps) = Some st →
  Native.Publish ps c topic msg w
  = let t := Native.Client_Topic c topic in
    let m := Native.mkMessage "" (bytes_of msg) None "" in
    let sent := Native.Topic_Publish t m (env w) in
    let got := Native.PublishResult_Get sent.1 sent.2 in
    (Returned got.1.2,
     mkWorld got.2 (calls w ++ [Native.Topic_Publish_call t m; Native.Get_call sent.1])
       (diagnostics w ++ publish_report got.1.2)).
Proof.
  intros Hvu. unfold Native.Publish.
  by rewrite Hvu, Native_publishMessage_state.
Qed.

Lemma Native_PublishWithAttributes_state ps st c topic msg attributes (w : Native.W) :
  Native.State (Native.vu ps) = Some st →
  Native.PublishWithAttributes ps c topic msg attributes w
  = let t := Native.Client_Topic c topic in
    let m := Native.mkMessage "" (bytes_of msg) attributes "" in
    let sent := Native.Topic_Publish t m (env w) in
    let got := Native.PublishResult_Get sent.1 sent.2 in
    (Returned got.1.2,
     mkWorld got.2 (calls w ++ [Native.Topic_Publish_call t m; Native.Get_call sent.1])
       (diagnostics w ++ publish_report got.1.2)).
Proof.
  intros Hvu. unfold Native.PublishWithAttributes.
  by rewrite Hvu, Native_publishMessage_state.
Qed.

End PublishRuns.

(** ** The claims *)

Section Claims.
Context {WB : Watermill.Backend} {NB : Native.Backend}.

(** C1. For every configuration map the decoder accepts, the publish
    timeout [Publisher] resolves is N seconds when the decoded
    [PublishTimeout] is a positive integer N, and 5 seconds when it is
    zero or negative, or when no key of the map matches the field, as
    for the key [publish_timeout], which the decoder does not match.
    Both implementations hand the client constructor the duration made
    of that count of seconds, [time.Second * time.Duration(secs)], which
    is [secs * 10^9] nanoseconds up to 9223372036 seconds. *)
Theorem C1_publish_timeout_resolved (config : Config) (cnf : publisherConf) :
  Decode config zeroConf = (cnf, None) →
  let N := PublishTimeout cnf in
  let secs := PublishTimeout (defaultTimeout cnf) in
  (0 < N → secs = N)
  ∧ (N <= 0 → secs = 5)
  ∧ ((∀ k v, (k, v) ∈ config → EqualFold k "PublishTimeout" = false) →
     N = 0 ∧ secs = 5)
  ∧ EqualFold "publish_timeout" "PublishTimeout" = false
  ∧ (∀ ps (w : Watermill.W), ∃ pc lg,
       calls (Watermill.Publisher ps config w).2
       = calls w ++ [Watermill.NewPublisher_call pc lg]
       ∧ Watermill.PublisherConfig.PublishTimeout pc
         = Duration_mul time_Second (time_Duration secs))
  ∧ (∀ ps (w : Native.W), ∃ projectID opts,
       calls (Native.Publisher ps config w).2
       = calls w
         ++ [Native.NewClientWithConfig_call projectID
               {| Native.PublisherCallOptions_Publish :=
                    [Native.gax_WithTimeout
                       (Duration_mul (time_Duration secs) time_Second)] |}
               opts])
  ∧ (secs <= 9223372036 →
     Duration_mul time_Second (time_Duration secs) = secs * 1000000000
     ∧ Duration_mul (time_Duration secs) time_Second = secs * 1000000000).
Proof.
  intros Hdec N secs.
  destruct (defaultTimeout_seconds cnf) as (Hpos & Hneg & Hone).
  repeat split; try done.
  - pose proof (Decode_PublishTimeout config zeroConf) as Hf.
    rewrite Hdec, rawMapVal_absent in Hf; [done | | done].
    unfold fieldNames. set_solver.
  - apply Hneg.
    pose proof (Decode_PublishTimeout config zeroConf) as Hf.
    rewrite Hdec, rawMapVal_absent in Hf; [| unfold fieldNames; set_solver | done].
    simpl in Hf. unfold N. lia.
  - intros ps w. rewrite (Watermill_Publisher_decoded ps config cnf w Hdec). cbv zeta.
    eexists _, _. split; [by case_match |]. reflexivity.
  - intros ps w. rewrite (Native_Publisher_decoded ps config cnf w Hdec). cbv zeta.
    eexists _, _. by case_match.
  - apply seconds_exact. unfold secs. lia.
  - apply seconds_exact. unfold secs. lia.
Qed.

(** C4. For every configuration map the decoder accepts, when the
    decoded credentials string is not empty [Publisher] passes exactly
    its bytes to the client constructor as the one credentials-JSON
    option, and when it is empty, as it is when no key matches the
    field, the list of options is empty. *)
Theorem C4_credentials_option (config : Config) (cnf : publisherConf) :
  Decode config zeroConf = (cnf, None) →
  let credentials := Credentials cnf in
  let expected :=
    if String.eqb credentials "" then []
    else [WithCredentialsJSON (bytes_of credentials)] in
  Watermill.withCredentials credentials = expected
  ∧ (∀ ps (w : Watermill.W), ∃ pc lg,
       calls (Watermill.Publisher ps config w).2
       = calls w ++ [Watermill.NewPublisher_call pc lg]
       ∧ Watermill.PublisherConfig.ClientOptions pc = expected)
  ∧ (∀ ps (w : Native.W), ∃ projectID clientConfig,
       calls (Native.Publisher ps config w).2
       = calls w ++ [Native.NewClientWithConfig_call projectID clientConfig expected])
  ∧ string_of (bytes_of credentials) = credentials
  ∧ ((∀ k v, (k, v) ∈ config → EqualFold k "Credentials" = false) →
     credentials = "" ∧ expected = []).
Proof.
  intros Hdec credentials expected.
  destruct (defaultTimeout_fields cnf) as (_ & Hcred & _).
  assert (credentialOptions credentials = expected) as Hexp
    by apply credentialOptions_cases.
  repeat split.
  - by rewrite withCredentials_options.
  - intros ps w. rewrite (Watermill_Publisher_decoded ps config cnf w Hdec). cbv zeta.
    eexists _, _. split; [by case_match |].
    simpl. by rewrite withCredentials_options, Hcred.
  - intros ps w. rewrite (Native_Publisher_decoded ps config cnf w Hdec). cbv zeta.
    eexists _, _. rewrite Hcred. fold credentials. rewrite Hexp. by case_match.
  - apply bytes_roundtrip.
  - pose proof (Decode_Credentials config zeroConf) as Hf.
    rewrite Hdec, rawMapVal_absent in Hf; [done | unfold fieldNames; set_solver | done].
  - pose proof (Decode_Credentials config zeroConf) as Hf.
    rewrite Hdec, rawMapVal_absent in Hf; [| unfold fieldNames; set_solver | done].
    simpl in Hf. unfold expected, credentials. by rewrite Hf.
Qed.

(** C6. For every configuration map on which decoding fails, and for
    every one on which the construction of the client fails,
    [Publisher] ends the process with exit status 1 after logging the
    error: it returns no client and no error to its caller.  When
    decoding fails the client library is not called at all. *)
Theorem C6_fatal_on_bad_configuration (config : Config)
    (wps : Watermill.PubSub) (nps : Native.PubSub)
    (w : Watermill.W) (w' : Native.W) :
  let decoded := Decode config zeroConf in
  let cnf := defaultTimeout decoded.1 in
  (∀ e, decoded.2 = Some e →
     Watermill.Publisher wps config w
     = (Exited 1,
        mkWorld (env w) (calls w)
          (diagnostics w
           ++ [Fatal_logged "xk6-pubsub: unable to read publisher config: %v" e]))
     ∧ Native.Publisher nps config w'
       = (Exited 1,
          mkWorld (env w') (calls w')
            (diagnostics w'
             ++ [Fatal_logged "xk6-pubsub: unable to read publisher config: %v" e])))
  ∧ (∀ e, decoded.2 = None →
       (Watermill.googlecloud_NewPublisher (Watermill.publisherConfig cnf)
          (Watermill.NewStdLogger (Debug cnf) (Trace cnf)) (env w)).1.2 = Some e →
       (Watermill.Publisher wps config w).1 = Exited 1
       ∧ diagnostics (Watermill.Publisher wps config w).2
         = diagnostics w ++ [Fatal_logged "xk6-pubsub: unable to init publisher: %v" e])
  ∧ (∀ e, decoded.2 = None →
       (Native.pubsub_NewClientWithConfig (ProjectID cnf)
          {| Native.PublisherCallOptions_Publish :=
               [Native.gax_WithTimeout
                  (Duration_mul (time_Duration (PublishTimeout cnf)) time_Second)] |}
          (credentialOptions (Credentials cnf)) (env w')).1.2 = Some e →
       (Native.Publisher nps config w').1 = Exited 1
       ∧ diagnostics (Native.Publisher nps config w').2
         = diagnostics w' ++ [Fatal_logged "xk6-pubsub: unable to init publisher: %v" e]).
Proof.
  intros decoded cnf. unfold cnf.
  destruct decoded as [c err] eqn:Hdec. unfold decoded in Hdec. simpl.
  split; [| split].
  - intros e ->. split.
    + by apply Watermill_Publisher_undecoded with (cnf := c).
    + by apply Native_Publisher_undecoded with (cnf := c).
  - intros e -> Hnew. rewrite (Watermill_Publisher_decoded wps config c w Hdec).
    cbv zeta. by rewrite Hnew.
  - intros e -> Hnew. rewrite (Native_Publisher_decoded nps config c w' Hdec).
    cbv zeta. by rewrite Hnew.
Qed.

(** C8. For every configuration map, the keys that match no field of the
    configuration are ignored: the decoder, and with it [Publisher],
    gives the same result as on the map without them, and when the
    entries of the recognized fields are well-typed the decoder reports
    no error.  The snake-case names [project_id], [publish_timeout] and
    [do_not_create_topic_if_missing] are such keys. *)
Theorem C8_unknown_keys_ignored (config : Config)
    (wps : Watermill.PubSub) (nps : Native.PubSub)
    (w : Watermill.W) (w' : Native.W) :
  let known := List.filter (fun kv => negb (unrecognized kv.1)) config in
  Decode config zeroConf = Decode known zeroConf
  ∧ Watermill.Publisher wps config w = Watermill.Publisher wps known w
  ∧ Native.Publisher nps config w' = Native.Publisher nps known w'
  ∧ (well_typed known = true →
     (Decode config zeroConf).2 = None
     ∧ (∀ k v l1 l2, config = l1 ++ (k, v) :: l2 → unrecognized k = true →
        Decode config zeroConf = Decode (l1 ++ l2) zeroConf))
  ∧ Forall (fun k => unrecognized k = true)
      ["project_id"; "publish_timeout"; "do_not_create_topic_if_missing"].
Proof.
  intros known.
  assert (Decode config zeroConf = Decode known zeroConf) as Hdec.
  { apply Decode_ext. intros f Hf. symmetry. by apply rawMapVal_recognized. }
  repeat split.
  - done.
  - unfold Watermill.Publisher. by rewrite Hdec.
  - unfold Native.Publisher. by rewrite Hdec.
  - rewrite Hdec. by apply Decode_error_iff.
  - intros k v l1 l2 -> Hk. apply Decode_ext. intros f Hf.
    apply rawMapVal_skip; [done |]. by apply unrecognized_EqualFold.
  - repeat constructor.
Qed.

(** C2. For every call of [Publish] or [PublishWithAttributes] in which
    no execution state is resolvable, the call returns the error
    "xk6-pubsub: state is nil", makes no call to the client (the list of
    calls is unchanged, and of the outside state only the identifier
    generator of the watermill implementation has moved), reports the
    error to the diagnostic sink, and returns to its caller: the process
    does not exit. *)
Theorem C2_no_state_no_call (ctx : Watermill.Context)
    (wps : Watermill.PubSub) (nps : Native.PubSub)
    (p : Watermill.googlecloud_Publisher) (c : Native.Client)
    (topic msg : string) (attributes : StringMap)
    (w : Watermill.W) (w' : Native.W) :
  Watermill.lib_GetState ctx = None →
  Native.State (Native.vu nps) = None →
  let err := errorString "xk6-pubsub: state is nil" in
  let report := [Reported err "cannot determine state"] in
  let generated := Watermill.watermill_NewShortUUID (env w) in
  Watermill.Publish wps ctx p topic msg w
  = (Returned (Some err), mkWorld generated.2 (calls w) (diagnostics w ++ report))
  ∧ Watermill.PublishWithAttributes wps ctx p topic msg attributes w
    = (Returned (Some err), mkWorld generated.2 (calls w) (diagnostics w ++ report))
  ∧ Native.Publish nps c topic msg w'
    = (Returned (Some err), mkWorld (env w') (calls w') (diagnostics w' ++ report))
  ∧ Native.PublishWithAttributes nps c topic msg attributes w'
    = (Returned (Some err), mkWorld (env w') (calls w') (diagnostics w' ++ report)).
Proof.
  intros Hctx Hvu err report generated.
  unfold Watermill.Publish, Watermill.PublishWithAttributes,
    Native.Publish, Native.PublishWithAttributes.
  rewrite Hvu, !Native_publishMessage_no_state.
  unfold bind, ambient. fold generated. destruct generated as [uuid e] eqn:Hgen.
  rewrite !Watermill_publishMessage_no_state by done.
  done.
Qed.

(** C3. For every publish call with a resolvable execution state,
    exactly one call is made to the publish operation of the client (in
    the native implementation one [Topic.Publish], whose result is read
    once), the outside state is left as that one exchange leaves it, so
    nothing is retried, and the call returns exactly what the client
    returned: its error value, unchanged, when it fails.  On failure the
    error is also reported to the diagnostic sink, which changes neither
    the value returned nor the fact that the call returns. *)
Theorem C3_one_call_error_unchanged (ctx : Watermill.Context) (st : lib_State)
    (wps : Watermill.PubSub) (nps : Native.PubSub)
    (p : Watermill.googlecloud_Publisher) (c : Native.Client)
    (topic msg : string) (attributes : StringMap)
    (w : Watermill.W) (w' : Native.W) :
  Watermill.lib_GetState ctx = Some st →
  Native.State (Native.vu nps) = Some st →
  let report (r : option error) :=
    match r with
    | Some e => [Reported e "xk6-pubsub: unable to publish message"]
    | None => []
    end in
  let generated := Watermill.watermill_NewShortUUID (env w) in
  (let m := Watermill.message_NewMessage generated.1 (bytes_of msg) in
     let r := Watermill.Publisher_Publish p topic [m] generated.2 in
     Watermill.Publish wps ctx p topic msg w
     = (Returned r.1,
        mkWorld r.2 (calls w ++ [Watermill.Publish_call p topic [m]])
          (diagnostics w ++ report r.1)))
  ∧ (let m := Watermill.createMessage generated.1 (bytes_of msg) attributes in
       let r := Watermill.Publisher_Publish p topic [m] generated.2 in
       Watermill.PublishWithAttributes wps ctx p topic msg attributes w
       = (Returned r.1,
          mkWorld r.2 (calls w ++ [Watermill.Publish_call p topic [m]])
            (diagnostics w ++ report r.1)))
  ∧ (let t := Native.Client_Topic c topic in
     let m := Native.mkMessage "" (bytes_of msg) None "" in
       let sent := Native.Topic_Publish t m (env w') in
       let got := Native.PublishResult_Get sent.1 sent.2 in
       Native.Publish nps c topic msg w'
       = (Returned got.1.2,
          mkWorld got.2
            (calls w' ++ [Native.Topic_Publish_call t m; Native.Get_call sent.1])
            (diagnostics w' ++ report got.1.2)))
  ∧ (let t := Native.Client_Topic c topic in
     let m := Native.mkMessage "" (bytes_of msg) attributes "" in
       let sent := Native.Topic_Publish t m (env w') in
       let got := Native.PublishResult_Get sent.1 sent.2 in
       Native.PublishWithAttributes nps c topic msg attributes w'
       = (Returned got.1.2,
          mkWorld got.2
            (calls w' ++ [Native.Topic_Publish_call t m; Native.Get_call sent.1])
            (diagnostics w' ++ report got.1.2))).
Proof.
  intros Hctx Hvu report generated.
  rewrite (Watermill_Publish_state wps ctx st), (Native_Publish_state nps st),
    (Watermill_PublishWithAttributes_state wps ctx st),
    (Native_PublishWithAttributes_state nps st) by done.
  repeat split.
Qed.

(** C5. For every call [PublishWithAttributes(p, topic, msg, attributes)]
    that reaches the client, the one message submitted has exactly
    [attributes] as its metadata (attributes) and exactly the bytes of
    the string [msg] as its payload, which decode back to [msg]. *)
Theorem C5_message_of_PublishWithAttributes (ctx : Watermill.Context) (st : lib_State)
    (wps : Watermill.PubSub) (nps : Native.PubSub)
    (p : Watermill.googlecloud_Publisher) (c : Native.Client)
    (topic msg : string) (attributes : StringMap)
    (w : Watermill.W) (w' : Native.W) :
  Watermill.lib_GetState ctx = Some st →
  Native.State (Native.vu nps) = Some st →
  (∃ m,
     calls (Watermill.PublishWithAttributes wps ctx p topic msg attributes w).2
     = calls w ++ [Watermill.Publish_call p topic [m]]
     ∧ Watermill.Metadata m = attributes
     ∧ Watermill.Payload m = bytes_of msg
     ∧ string_of (Watermill.Payload m) = msg)
  ∧ (∃ m res,
       calls (Native.PublishWithAttributes nps c topic msg attributes w').2
       = calls w'
         ++ [Native.Topic_Publish_call (Native.Client_Topic c topic) m;
             Native.Get_call res]
       ∧ Native.Attributes m = attributes
       ∧ Native.Data m = bytes_of msg
       ∧ string_of (Native.Data m) = msg).
Proof.
  intros Hctx Hvu.
  rewrite (Watermill_PublishWithAttributes_state wps ctx st),
    (Native_PublishWithAttributes_state nps st) by done.
  split.
  - eexists. simpl. repeat split. apply bytes_roundtrip.
  - eexists _, _. simpl. repeat split. apply bytes_roundtrip.
Qed.

(** C7. The two implementations differ in the identifier of the message
    and in nothing else of it: for every publish call that reaches the
    client, the watermill implementation submits a message whose UUID is
    the identifier it has just drawn from [watermill.NewShortUUID], the
    native implementation submits a message whose ID is empty, left to
    the service, and the two messages carry the same payload, the bytes
    of [msg], and the same attributes: none for [Publish], exactly
    [attributes] for [PublishWithAttributes]. *)
Theorem C7_identifier_divergence (ctx : Watermill.Context) (st : lib_State)
    (wps : Watermill.PubSub) (nps : Native.PubSub)
    (p : Watermill.googlecloud_Publisher) (c : Native.Client)
    (topic msg : string) (attributes : StringMap)
    (w : Watermill.W) (w' : Native.W) :
  Watermill.lib_GetState ctx = Some st →
  Native.State (Native.vu nps) = Some st →
  let generated := Watermill.watermill_NewShortUUID (env w) in
  (∃ mw mn res,
     calls (Watermill.Publish wps ctx p topic msg w).2
     = calls w ++ [Watermill.Publish_call p topic [mw]]
     ∧ calls (Native.Publish nps c topic msg w').2
       = calls w'
         ++ [Native.Topic_Publish_call (Native.Client_Topic c topic) mn;
             Native.Get_call res]
     ∧ Watermill.UUID mw = generated.1
     ∧ Native.ID mn = ""
     ∧ Watermill.Payload mw = bytes_of msg
     ∧ Native.Data mn = bytes_of msg
     ∧ entries (Watermill.Metadata mw) = ∅
     ∧ entries (Native.Attributes mn) = ∅)
  ∧ (∃ mw mn res,
       calls (Watermill.PublishWithAttributes wps ctx p topic msg attributes w).2
       = calls w ++ [Watermill.Publish_call p topic [mw]]
       ∧ calls (Native.PublishWithAttributes nps c topic msg attributes w').2
         = calls w'
           ++ [Native.Topic_Publish_call (Native.Client_Topic c topic) mn;
               Native.Get_call res]
       ∧ Watermill.UUID mw = generated.1
       ∧ Native.ID mn = ""
       ∧ Watermill.Payload mw = bytes_of msg
       ∧ Native.Data mn = bytes_of msg
       ∧ Watermill.Metadata mw = attributes
       ∧ Native.Attributes mn = attributes).
Proof.
  intros Hctx Hvu generated.
  rewrite (Watermill_Publish_state wps ctx st), (Native_Publish_state nps st),
    (Watermill_PublishWithAttributes_state wps ctx st),
    (Native_PublishWithAttributes_state nps st) by done.
  split; eexists _, _, _; simpl; repeat split.
Qed.

(** C9. [publishMessage], and with it [Publish] and
    [PublishWithAttributes], always returns to its caller, and it
    returns nil if and only if the execution state is resolvable and the
    publish operation of the client succeeds; in every other case it
    returns an error. *)
Theorem C9_nil_iff_state_and_success (ctx : Watermill.Context)
    (wps : Watermill.PubSub) (nps : Native.PubSub)
    (p : Watermill.googlecloud_Publisher) (c : Native.Client)
    (topic msg : string) (attributes : StringMap)
    (m : Watermill.Message) (data : list Byte.byte) (state : option lib_State)
    (variadic : list StringMap) (w : Watermill.W) (w' : Native.W) :
  let generated := Watermill.watermill_NewShortUUID (env w) in
  let native_result (msg : Native.Message) :=
    let sent := Native.Topic_Publish (Native.Client_Topic c topic) msg (env w') in
    (Native.PublishResult_Get sent.1 sent.2).1.2 in
  (∃ r, (Watermill.publishMessage ctx p topic m w).1 = Returned r
        ∧ (r = None ↔
           is_Some (Watermill.lib_GetState ctx)
           ∧ (Watermill.Publisher_Publish p topic [m] (env w)).1 = None)
        ∧ (r ≠ None → ∃ e, r = Some e))
  ∧ (∃ r, (Native.publishMessage c topic data state variadic w').1 = Returned r
          ∧ (r = None ↔
             is_Some state ∧ native_result (native_message data variadic) = None)
          ∧ (r ≠ None → ∃ e, r = Some e))
  ∧ (∃ r, (Watermill.Publish wps ctx p topic msg w).1 = Returned r
          ∧ (r = None ↔
             is_Some (Watermill.lib_GetState ctx)
             ∧ (Watermill.Publisher_Publish p topic
                  [Watermill.message_NewMessage generated.1 (bytes_of msg)]
                  generated.2).1 = None))
  ∧ (∃ r, (Watermill.PublishWithAttributes wps ctx p topic msg attributes w).1
          = Returned r
          ∧ (r = None ↔
             is_Some (Watermill.lib_GetState ctx)
             ∧ (Watermill.Publisher_Publish p topic
                  [Watermill.createMessage generated.1 (bytes_of msg) attributes]
                  generated.2).1 = None))
  ∧ (∃ r, (Native.Publish nps c topic msg w').1 = Returned r
          ∧ (r = None ↔
             is_Some (Native.State (Native.vu nps))
             ∧ native_result (Native.mkMessage "" (bytes_of msg) None "") = None))
  ∧ (∃ r, (Native.PublishWithAttributes nps c topic msg attributes w').1 = Returned r
          ∧ (r = None ↔
             is_Some (Native.State (Native.vu nps))
             ∧ native_result (Native.mkMessage "" (bytes_of msg) attributes "") = None)).
Proof.
  intros generated native_result. unfold native_result.
  assert (∀ r : option error, r ≠ None → ∃ e, r = Some e) as Hsome.
  { intros [e |]; [eauto | done]. }
  assert (∀ P : Prop, (Some no_state_error = None ↔ @is_Some lib_State None ∧ P))
    as Hnone.
  { intros P. split; [done | intros [[? ?] _]; done]. }
  repeat apply conj.
  - destruct (Watermill.lib_GetState ctx) as [st |] eqn:Hctx.
    + rewrite (Watermill_publishMessage_state ctx p topic m st) by done. simpl.
      eexists. split; [done |]. split; [| apply Hsome]. split; [eauto | by intros [_ ?]].
    + rewrite Watermill_publishMessage_no_state by done.
      eexists. split; [done |]. split; [apply Hnone | apply Hsome].
  - destruct state as [st |].
    + rewrite Native_publishMessage_state. simpl.
      eexists. split; [done |]. split; [| apply Hsome]. split; [eauto | by intros [_ ?]].
    + rewrite Native_publishMessage_no_state.
      eexists. split; [done |]. split; [apply Hnone | apply Hsome].
  - destruct (Watermill.lib_GetState ctx) as [st |] eqn:Hctx.
    + rewrite (Watermill_Publish_state wps ctx st) by done. simpl.
      eexists. split; [done |]. split; [eauto | by intros [_ ?]].
    + unfold Watermill.Publish, bind, ambient. fold generated.
      destruct generated as [uuid e]. rewrite Watermill_publishMessage_no_state by done.
      eexists. split; [done | apply Hnone].
  - destruct (Watermill.lib_GetState ctx) as [st |] eqn:Hctx.
    + rewrite (Watermill_PublishWithAttributes_state wps ctx st) by done. simpl.
      eexists. split; [done |]. split; [eauto | by intros [_ ?]].
    + unfold Watermill.PublishWithAttributes, bind, ambient. fold generated.
      destruct generated as [uuid e]. rewrite Watermill_publishMessage_no_state by done.
      eexists. split; [done | apply Hnone].
  - destruct (Native.State (Native.vu nps)) as [st |] eqn:Hvu.
    + rewrite (Native_Publish_state nps st) by done. simpl.
      eexists. split; [done |]. split; [eauto | by intros [_ ?]].
    + unfold Native.Publish. rewrite Hvu, Native_publishMessage_no_state.
      eexists. split; [done | apply Hnone].
  - destruct (Native.State (Native.vu nps)) as [st |] eqn:Hvu.
    + rewrite (Native_PublishWithAttributes_state nps st) by done. simpl.
      eexists. split; [done |]. split; [eauto | by intros [_ ?]].
    + unfold Native.PublishWithAttributes. rewrite Hvu, Native_publishMessage_no_state.
      eexists. split; [done | apply Hnone].
Qed.

(** C10. Neither implementation checks the topic: for every topic
    string, the empty one included, a publish call with a resolvable
    execution state makes its call to the client with exactly that
    topic. *)
Theorem C10_topic_forwarded (ctx : Watermill.Context) (st : lib_State)
    (wps : Watermill.PubSub) (nps : Native.PubSub)
    (p : Watermill.googlecloud_Publisher) (c : Native.Client)
    (topic msg : string) (attributes : StringMap)
    (w : Watermill.W) (w' : Native.W) :
  Watermill.lib_GetState ctx = Some st →
  Native.State (Native.vu nps) = Some st →
  let forwarded (t : string) :=
    (∃ m, calls (Watermill.Publish wps ctx p t msg w).2
          = calls w ++ [Watermill.Publish_call p t [m]])
    ∧ (∃ m, calls (Watermill.PublishWithAttributes wps ctx p t msg attributes w).2
            = calls w ++ [Watermill.Publish_call p t [m]])
    ∧ (∃ m res, calls (Native.Publish nps c t msg w').2
                = calls w'
                  ++ [Native.Topic_Publish_call
                        {| Native.topic_client := c; Native.topic_id := t |} m;
                      Native.Get_call res])
    ∧ (∃ m res, calls (Native.PublishWithAttributes nps c t msg attributes w').2
                = calls w'
                  ++ [Native.Topic_Publish_call
                        {| Native.topic_client := c; Native.topic_id := t |} m;
                      Native.Get_call res]) in
  forwarded topic ∧ forwarded "".
Proof.
  intros Hctx Hvu forwarded.
  assert (∀ t, forwarded t) as Hall; [| by split].
  intros t. unfold forwarded.
  rewrite (Watermill_Publish_state wps ctx st), (Native_Publish_state nps st),
    (Watermill_PublishWithAttributes_state wps ctx st),
    (Native_PublishWithAttributes_state nps st) by done.
  simpl. repeat split; eauto.
Qed.

End Claims.

(** ** The claims on the mock collaborators *)

Lemma C1_publish_timeout_resolved_witness :
  Decode [("publishTimeout", VInt 30)] zeroConf
  = (mkConf "" "" 30 false false false, None)
  ∧ PublishTimeout (defaultTimeout (mkConf "" "" 30 false false false)) = 30.
Proof.
  split; [reflexivity |].
  pose proof (@C1_publish_timeout_resolved Mock.watermill Mock.native
                [("publishTimeout", VInt 30)] (mkConf "" "" 30 false false false)
                eq_refl) as H.
  cbv zeta in H. destruct H as [H _]. apply H. reflexivity.
Defined.

Lemma C2_no_state_no_call_witness :
  Watermill.lib_GetState Mock.init_ctx = None
  ∧ Native.State (Native.vu Mock.init_ps) = None
  ∧ Native.Publish (B := Mock.native) Mock.init_ps (Native.Build_Client 1)
      "topic-a" "hello" (Mock.world Mock.up)
    = (Returned (Some (errorString "xk6-pubsub: state is nil")),
       mkWorld Mock.up []
         [Reported (errorString "xk6-pubsub: state is nil") "cannot determine state"]).
Proof.
  split; [reflexivity |]. split; [reflexivity |].
  pose proof (@C2_no_state_no_call Mock.watermill Mock.native Mock.init_ctx
                Watermill.new_PubSub Mock.init_ps
                (Watermill.Build_googlecloud_Publisher 1) (Native.Build_Client 1)
                "topic-a" "hello" None (Mock.world Mock.up) (Mock.world Mock.up)
                eq_refl eq_refl) as H.
  cbv zeta in H. destruct H as (_ & _ & H & _). exact H.
Defined.

Lemma C3_one_call_error_unchanged_witness :
  Watermill.lib_GetState Mock.vu_ctx = Some {| vuID := 7 |}
  ∧ Native.State (Native.vu Mock.vu_ps) = Some {| vuID := 7 |}
  ∧ Watermill.Publish (B := Mock.watermill) Watermill.new_PubSub Mock.vu_ctx
      (Watermill.Build_googlecloud_Publisher 1) "topic-a" "hello" (Mock.world Mock.down)
    = (Returned (Some (client_error "unavailable")),
       mkWorld (Mock.mkEnv ["id-2"] false 1)
         [Watermill.Publish_call (Watermill.Build_googlecloud_Publisher 1) "topic-a"
            [Watermill.mkMessage "id-1" (Some ∅) (bytes_of "hello")]]
         [Reported (client_error "unavailable") "xk6-pubsub: unable to publish message"]).
Proof.
  split; [reflexivity |]. split; [reflexivity |].
  pose proof (@C3_one_call_error_unchanged Mock.watermill Mock.native Mock.vu_ctx
                {| vuID := 7 |} Watermill.new_PubSub Mock.vu_ps
                (Watermill.Build_googlecloud_Publisher 1) (Native.Build_Client 1)
                "topic-a" "hello" None (Mock.world Mock.down) (Mock.world Mock.down)
                eq_refl eq_refl) as H.
  cbv zeta in H. destruct H as (H & _). exact H.
Defined.

Lemma C4_credentials_option_witness :
  Decode [("credentials", VString "{}")] zeroConf
  = (mkConf "" "{}" 0 false false false, None)
  ∧ Watermill.withCredentials "{}" = [WithCredentialsJSON (bytes_of "{}")].
Proof.
  split; [reflexivity |].
  pose proof (@C4_credentials_option Mock.watermill Mock.native
                [("credentials", VString "{}")] (mkConf "" "{}" 0 false false false)
                eq_refl) as H.
  cbv zeta in H. destruct H as (H & _). exact H.
Defined.

Lemma C5_message_of_PublishWithAttributes_witness :
  Watermill.lib_GetState Mock.vu_ctx = Some {| vuID := 7 |}
  ∧ Native.State (Native.vu Mock.vu_ps) = Some {| vuID := 7 |}
  ∧ ∃ m,
      calls (Watermill.PublishWithAttributes (B := Mock.watermill) Watermill.new_PubSub
               Mock.vu_ctx (Watermill.Build_googlecloud_Publisher 1) "topic-a" "hello"
               (Some {["k" := "v"]}) (Mock.world Mock.up)).2
      = [] ++ [Watermill.Publish_call (Watermill.Build_googlecloud_Publisher 1)
                 "topic-a" [m]]
      ∧ Watermill.Metadata m = Some {["k" := "v"]}
      ∧ Watermill.Payload m = bytes_of "hello"
      ∧ string_of (Watermill.Payload m) = "hello".
Proof.
  split; [reflexivity |]. split; [reflexivity |].
  pose proof (@C5_message_of_PublishWithAttributes Mock.watermill Mock.native
                Mock.vu_ctx {| vuID := 7 |} Watermill.new_PubSub Mock.vu_ps
                (Watermill.Build_googlecloud_Publisher 1) (Native.Build_Client 1)
                "topic-a" "hello" (Some {["k" := "v"]})
                (Mock.world Mock.up) (Mock.world Mock.up) eq_refl eq_refl) as H.
  destruct H as (H & _). exact H.
Defined.

Lemma C6_fatal_on_bad_configuration_witness :
  (Decode [("publishTimeout", VString "30")] zeroConf).2
  = Some (mapstructure_Error ["PublishTimeout"])
  ∧ Watermill.Publisher (B := Mock.watermill) Watermill.new_PubSub
      [("publishTimeout", VString "30")] (Mock.world Mock.up)
    = (Exited 1,
       mkWorld Mock.up []
         [Fatal_logged "xk6-pubsub: unable to read publisher config: %v"
            (mapstructure_Error ["PublishTimeout"])]).
Proof.
  split; [reflexivity |].
  pose proof (@C6_fatal_on_bad_configuration Mock.watermill Mock.native
                [("publishTimeout", VString "30")] Watermill.new_PubSub Mock.init_ps
                (Mock.world Mock.up) (Mock.world Mock.up)) as H.
  cbv zeta in H. destruct H as (H & _).
  destruct (H (mapstructure_Error ["PublishTimeout"]) eq_refl) as (Hw & _).
  exact Hw.
Defined.

Lemma C7_identifier_divergence_witness :
  Watermill.lib_GetState Mock.vu_ctx = Some {| vuID := 7 |}
  ∧ Native.State (Native.vu Mock.vu_ps) = Some {| vuID := 7 |}
  ∧ ∃ mw mn res,
      calls (Watermill.Publish (B := Mock.watermill) Watermill.new_PubSub Mock.vu_ctx
               (Watermill.Build_googlecloud_Publisher 1) "topic-a" "hello"
               (Mock.world Mock.up)).2
      = [] ++ [Watermill.Publish_call (Watermill.Build_googlecloud_Publisher 1)
                 "topic-a" [mw]]
      ∧ calls (Native.Publish (B := Mock.native) Mock.vu_ps (Native.Build_Client 1)
                 "topic-a" "hello" (Mock.world Mock.up)).2
        = [] ++ [Native.Topic_Publish_call
                   (Native.Client_Topic (Native.Build_Client 1) "topic-a") mn;
                 Native.Get_call res]
      ∧ Watermill.UUID mw = "id-1"
      ∧ Native.ID mn = ""
      ∧ Watermill.Payload mw = bytes_of "hello"
      ∧ Native.Data mn = bytes_of "hello"
      ∧ entries (Watermill.Metadata mw) = ∅
      ∧ entries (Native.Attributes mn) = ∅.
Proof.
  split; [reflexivity |]. split; [reflexivity |].
  pose proof (@C7_identifier_divergence Mock.watermill Mock.native
                Mock.vu_ctx {| vuID := 7 |} Watermill.new_PubSub Mock.vu_ps
                (Watermill.Build_googlecloud_Publisher 1) (Native.Build_Client 1)
                "topic-a" "hello" None
                (Mock.world Mock.up) (Mock.world Mock.up) eq_refl eq_refl) as H.
  cbv zeta in H. destruct H as (H & _). exact H.
Defined.

Lemma C8_unknown_keys_ignored_witness :
  well_typed [("projectID", VString "q")] = true
  ∧ Decode [("project_id", VInt 1); ("projectID", VString "q")] zeroConf
    = Decode [("projectID", VString "q")] zeroConf.
Proof.
  split; [reflexivity |].
  pose proof (@C8_unknown_keys_ignored Mock.watermill Mock.native
                [("project_id", VInt 1); ("projectID", VString "q")]
                Watermill.new_PubSub Mock.init_ps
                (Mock.world Mock.up) (Mock.world Mock.up)) as H.
  cbv zeta in H. destruct H as (_ & _ & _ & H & _).
  destruct (H eq_refl) as (_ & Hskip).
  exact (Hskip "project_id" (VInt 1) [] [("projectID", VString "q")] eq_refl eq_refl).
Defined.

Lemma C9_nil_iff_state_and_success_witness :
  ∃ r, (Native.Publish (B := Mock.native) Mock.vu_ps (Native.Build_Client 1)
          "topic-a" "hello" (Mock.world Mock.up)).1 = Returned r
       ∧ (r = None ↔
          is_Some (Native.State (Native.vu Mock.vu_ps))
          ∧ (Native.PublishResult_Get (Backend := Mock.native)
               (Native.Topic_Publish (Backend := Mock.native)
                  (Native.Client_Topic (Native.Build_Client 1) "topic-a")
                  (Native.mkMessage "" (bytes_of "hello") None "") Mock.up).1
               (Native.Topic_Publish (Backend := Mock.native)
                  (Native.Client_Topic (Native.Build_Client 1) "topic-a")
                  (Native.mkMessage "" (bytes_of "hello") None "") Mock.up).2).1.2
            = None).
Proof.
  pose proof (@C9_nil_iff_state_and_success Mock.watermill Mock.native
                Mock.vu_ctx Watermill.new_PubSub Mock.vu_ps
                (Watermill.Build_googlecloud_Publisher 1) (Native.Build_Client 1)
                "topic-a" "hello" None (Watermill.mkMessage "" None []) [] None []
                (Mock.world Mock.up) (Mock.world Mock.up)) as H.
  cbv zeta in H. destruct H as (_ & _ & _ & _ & H & _). exact H.
Defined.

Lemma C10_topic_forwarded_witness :
  Watermill.lib_GetState Mock.vu_ctx = Some {| vuID := 7 |}
  ∧ Native.State (Native.vu Mock.vu_ps) = Some {| vuID := 7 |}
  ∧ ∃ m,
      calls (Watermill.Publish (B := Mock.watermill) Watermill.new_PubSub Mock.vu_ctx
               (Watermill.Build_googlecloud_Publisher 1) "" "hello"
               (Mock.world Mock.up)).2
      = [] ++ [Watermill.Publish_call (Watermill.Build_googlecloud_Publisher 1) "" [m]].
Proof.
  split; [reflexivity |]. split; [reflexivity |].
  pose proof (@C10_topic_forwarded Mock.watermill Mock.native
                Mock.vu_ctx {| vuID := 7 |} Watermill.new_PubSub Mock.vu_ps
                (Watermill.Build_googlecloud_Publisher 1) (Native.Build_Client 1)
                "topic-a" "hello" None
                (Mock.world Mock.up) (Mock.world Mock.up) eq_refl eq_refl) as H.
  cbv zeta in H. destruct H as (_ & H & _). exact H.
Defined.

(** ** Further properties of the constructor *)

Lemma wrap64_range (z : Z) : int64_range (wrap64 z).
Proof.
  unfold int64_range, wrap64.
  pose proof (Z.mod_pos_bound (z + 2 ^ 63) (2 ^ 64)). lia.
Qed.

Lemma Decode_PublishTimeout_range (config : Config) :
  int64_range (PublishTimeout (Decode config zeroConf).1).
Proof.
  rewrite Decode_PublishTimeout.
  destruct (rawMapVal "PublishTimeout" config) as [[] |]; simpl;
    try apply wrap64_range; unfold int64_range; lia.
Qed.

Section Constructor.
Context {WB : Watermill.Backend} {NB : Native.Backend}.

(** X1. When the configuration decodes and the constructor of the client
    reports no error, [Publisher] returns the very client the
    constructor made, after exactly one call to the constructor, with
    nothing written to the log. *)
Theorem Publisher_returns_client (config : Config) (cnf : publisherConf)
    (wps : Watermill.PubSub) (nps : Native.PubSub)
    (w : Watermill.W) (w' : Native.W) :
  Decode config zeroConf = (cnf, None) →
  let cnf' := defaultTimeout cnf in
  let pc := Watermill.publisherConfig cnf' in
  let lg := Watermill.NewStdLogger (Debug cnf') (Trace cnf') in
  let made := Watermill.googlecloud_NewPublisher pc lg (env w) in
  let cc :=
    {| Native.PublisherCallOptions_Publish :=
         [Native.gax_WithTimeout
            (Duration_mul (time_Duration (PublishTimeout cnf')) time_Second)] |} in
  let opt := credentialOptions (Credentials cnf') in
  let made' := Native.pubsub_NewClientWithConfig (ProjectID cnf') cc opt (env w') in
  (made.1.2 = None →
   Watermill.Publisher wps config w
   = (Returned made.1.1,
      mkWorld made.2 (calls w ++ [Watermill.NewPublisher_call pc lg]) (diagnostics w)))
  ∧ (made'.1.2 = None →
     Native.Publisher nps config w'
     = (Returned made'.1.1,
        mkWorld made'.2
          (calls w' ++ [Native.NewClientWithConfig_call (ProjectID cnf') cc opt])
          (diagnostics w'))).
Proof.
  intros Hdec cnf' pc lg made cc opt made'. split; intros Hok.
  - rewrite (Watermill_Publisher_decoded wps config cnf w Hdec). cbv zeta.
    fold cnf' pc lg made. by rewrite Hok.
  - rewrite (Native_Publisher_decoded nps config cnf w' Hdec). cbv zeta.
    fold cnf' cc opt made'. by rewrite Hok.
Qed.

(** X2. The watermill [Publisher] forwards what was decoded: the project
    identifier and the flag [DoNotCreateTopicIfMissing] reach the
    constructor unchanged with the default marshaler, and the logger is
    made from the decoded [Debug] and [Trace] flags; the defaulting of
    the timeout touches none of them. *)
Theorem Watermill_Publisher_forwards_fields (config : Config) (cnf : publisherConf)
    (ps : Watermill.PubSub) (w : Watermill.W) :
  Decode config zeroConf = (cnf, None) →
  ∃ pc lg,
    calls (Watermill.Publisher ps config w).2
    = calls w ++ [Watermill.NewPublisher_call pc lg]
    ∧ Watermill.PublisherConfig.ProjectID pc = ProjectID cnf
    ∧ Watermill.PublisherConfig.DoNotCreateTopicIfMissing pc
      = DoNotCreateTopicIfMissing cnf
    ∧ Watermill.PublisherConfig.Marshaler pc = Watermill.DefaultMarshalerUnmarshaler
    ∧ Watermill.debug lg = Debug cnf
    ∧ Watermill.trace lg = Trace cnf.
Proof.
  intros Hdec. rewrite (Watermill_Publisher_decoded ps config cnf w Hdec). cbv zeta.
  destruct (defaultTimeout_fields cnf) as (Hp & _ & Hd & Ht & Hn).
  eexists _, _. split; [by case_match |]. simpl. by rewrite Hp, Hd, Ht, Hn.
Qed.

(** X3. The native [Publisher] reads three fields only: two
    configurations that decode to the same project identifier,
    credentials and publish timeout run identically, whatever their
    [Debug], [Trace] and [DoNotCreateTopicIfMissing] are, and the
    project identifier is the one handed to the constructor. *)
Theorem Native_Publisher_reads_three_fields (c1 c2 : Config)
    (cnf1 cnf2 : publisherConf) (ps : Native.PubSub) (w : Native.W) :
  Decode c1 zeroConf = (cnf1, None) →
  Decode c2 zeroConf = (cnf2, None) →
  ProjectID cnf1 = ProjectID cnf2 →
  Credentials cnf1 = Credentials cnf2 →
  PublishTimeout cnf1 = PublishTimeout cnf2 →
  Native.Publisher ps c1 w = Native.Publisher ps c2 w
  ∧ ∃ clientConfig opts,
      calls (Native.Publisher ps c1 w).2
      = calls w ++ [Native.NewClientWithConfig_call (ProjectID cnf1) clientConfig opts].
Proof.
  intros H1 H2 Hp Hc Ht.
  rewrite (Native_Publisher_decoded ps c1 cnf1 w H1),
    (Native_Publisher_decoded ps c2 cnf2 w H2). cbv zeta.
  destruct (defaultTimeout_fields cnf1) as (Hp1 & Hc1 & _).
  destruct (defaultTimeout_fields cnf2) as (Hp2 & Hc2 & _).
  assert (PublishTimeout (defaultTimeout cnf1) = PublishTimeout (defaultTimeout cnf2))
    as Hsecs.
  { unfold defaultTimeout. rewrite Ht. by case_match. }
  rewrite Hp1, Hp2, Hc1, Hc2, Hsecs, Hp, Hc. split; [done |].
  eexists _, _. by case_match.
Qed.

(** X4. For every configuration that decodes, the count of seconds
    [Publisher] converts is at least 1 and fits an [int64], and the
    duration it hands to the constructor is that count of seconds in
    nanoseconds exactly when the count is at most 9223372036; past that
    the product has wrapped around and is another duration. *)
Theorem Publisher_duration_exact_iff (config : Config) (cnf : publisherConf)
    (wps : Watermill.PubSub) (nps : Native.PubSub)
    (w : Watermill.W) (w' : Native.W) :
  Decode config zeroConf = (cnf, None) →
  ∃ secs d,
    secs = PublishTimeout (defaultTimeout cnf)
    ∧ 1 <= secs < 2 ^ 63
    ∧ (d = secs * 1000000000 ↔ secs <= 9223372036)
    ∧ (∃ pc lg,
         calls (Watermill.Publisher wps config w).2
         = calls w ++ [Watermill.NewPublisher_call pc lg]
         ∧ Watermill.PublisherConfig.PublishTimeout pc = d)
    ∧ (∃ projectID opts,
         calls (Native.Publisher nps config w').2
         = calls w'
           ++ [Native.NewClientWithConfig_call projectID
                 {| Native.PublisherCallOptions_Publish := [Native.gax_WithTimeout d] |}
                 opts]).
Proof.
  intros Hdec.
  pose proof (Decode_PublishTimeout_range config) as Hr. rewrite Hdec in Hr.
  unfold int64_range in Hr. simpl in Hr.
  destruct (defaultTimeout_seconds cnf) as (Hpos & Hneg & Hone).
  set (secs := PublishTimeout (defaultTimeout cnf)) in *.
  assert (secs < 2 ^ 63) as Hup.
  { destruct (Z.lt_ge_cases 0 (PublishTimeout cnf)) as [Hp | Hn].
    - rewrite (Hpos Hp). lia.
    - rewrite Hneg by lia. lia. }
  assert (Duration_mul time_Second (time_Duration secs)
          = Duration_mul (time_Duration secs) time_Second) as Hcomm.
  { unfold Duration_mul. f_equal. lia. }
  exists secs, (Duration_mul time_Second (time_Duration secs)).
  repeat apply conj; try done.
  - intros Heq. destruct (Z.le_gt_cases secs 9223372036) as [Hle | Hgt]; [done |].
    pose proof (wrap64_range (time_Second * time_Duration secs)) as Hw.
    unfold Duration_mul in Heq. rewrite Heq in Hw.
    unfold int64_range in Hw. lia.
  - intros Hle. apply seconds_exact. lia.
  - rewrite (Watermill_Publisher_decoded wps config cnf w Hdec). cbv zeta.
    eexists _, _. split; [by case_match | done].
  - rewrite (Native_Publisher_decoded nps config cnf w' Hdec). cbv zeta.
    eexists _, _. fold secs. rewrite <- Hcomm. by case_match.
Qed.

End Constructor.

(** ** Further properties of publishing *)

Lemma bytes_of_inj (s1 s2 : string) : bytes_of s1 = bytes_of s2 → s1 = s2.
Proof.
  intros H. rewrite <- (bytes_roundtrip s1), <- (bytes_roundtrip s2). by rewrite H.
Qed.

(** X5. [withCredentials] loses nothing: it builds at most one option,
    and two credentials strings that give the same options are the same
    string. *)
Theorem withCredentials_injective (c1 c2 : string) :
  (length (Watermill.withCredentials c1) <= 1)%nat
  ∧ (Watermill.withCredentials c1 = Watermill.withCredentials c2 → c1 = c2).
Proof.
  rewrite !withCredentials_options, !credentialOptions_cases. split.
  - case_match; simpl; lia.
  - destruct (String.eqb c1 "") eqn:H1, (String.eqb c2 "") eqn:H2; intros H;
      try discriminate.
    + apply String.eqb_eq in H1, H2. congruence.
    + injection H as H. by apply bytes_of_inj.
Qed.

Section Publishing.
Context {WB : Watermill.Backend} {NB : Native.Backend}.

(** X6. In the native implementation [Publish] is
    [PublishWithAttributes] with a nil attribute map, and
    [publishMessage] reads the first of its variadic attribute maps
    only. *)
Theorem Native_Publish_is_nil_attributes (ps : Native.PubSub) (c : Native.Client)
    (topic msg : string) (data : list Byte.byte) (state : option lib_State)
    (a : StringMap) (rest : list StringMap) (w : Native.W) :
  Native.Publish ps c topic msg w = Native.PublishWithAttributes ps c topic msg None w
  ∧ Native.publishMessage c topic data state (a :: rest) w
    = Native.publishMessage c topic data state [a] w.
Proof.
  unfold Native.Publish, Native.PublishWithAttributes. split.
  - destruct (Native.State (Native.vu ps)) as [st |].
    + by rewrite !Native_publishMessage_state.
    + by rewrite !Native_publishMessage_no_state.
  - destruct state as [st |].
    + by rewrite !Native_publishMessage_state.
    + by rewrite !Native_publishMessage_no_state.
Qed.

(** X7. Whatever the execution state and whatever the client answers, a
    publish call returns to its caller, keeps the calls and the
    diagnostics made before it, and reports an error exactly when it
    returns one: the diagnostics gain one report, of the very error
    returned, when the result is an error, and nothing when it is nil. *)
Theorem publish_reports_what_it_returns (ctx : Watermill.Context)
    (wps : Watermill.PubSub) (nps : Native.PubSub)
    (p : Watermill.googlecloud_Publisher) (c : Native.Client)
    (topic msg : string) (attributes : StringMap)
    (w : Watermill.W) (w' : Native.W) :
  let reported {Env Call : Type} (run : Outcome (option error) * World Env Call)
      (before : World Env Call) :=
    ∃ r text,
      run.1 = Returned r
      ∧ diagnostics run.2
        = diagnostics before
          ++ match r with Some e => [Reported e text] | None => [] end
      ∧ calls before `prefix_of` calls run.2 in
  reported (Watermill.Publish wps ctx p topic msg w) w
  ∧ reported (Watermill.PublishWithAttributes wps ctx p topic msg attributes w) w
  ∧ reported (Native.Publish nps c topic msg w') w'
  ∧ reported (Native.PublishWithAttributes nps c topic msg attributes w') w'.
Proof.
  intros reported. unfold reported.
  assert (∀ r : option error,
            publish_report r
            = match r with
              | Some e => [Reported e "xk6-pubsub: unable to publish message"]
              | None => []
              end) as Hrep by done.
  repeat apply conj.
  - destruct (Watermill.lib_GetState ctx) as [st |] eqn:Hctx.
    + rewrite (Watermill_Publish_state wps ctx st) by done. cbv zeta.
      eexists _, _. simpl. rewrite Hrep. split; [done |]. split; [done |].
      by apply prefix_app_r.
    + unfold Watermill.Publish, bind, ambient.
      destruct (Watermill.watermill_NewShortUUID (env w)) as [uuid e].
      rewrite Watermill_publishMessage_no_state by done.
      eexists _, _. simpl. split; [done |]. split; done.
  - destruct (Watermill.lib_GetState ctx) as [st |] eqn:Hctx.
    + rewrite (Watermill_PublishWithAttributes_state wps ctx st) by done. cbv zeta.
      eexists _, _. simpl. rewrite Hrep. split; [done |]. split; [done |].
      by apply prefix_app_r.
    + unfold Watermill.PublishWithAttributes, bind, ambient.
      destruct (Watermill.watermill_NewShortUUID (env w)) as [uuid e].
      rewrite Watermill_publishMessage_no_state by done.
      eexists _, _. simpl. split; [done |]. split; done.
  - destruct (Native.State (Native.vu nps)) as [st |] eqn:Hvu.
    + rewrite (Native_Publish_state nps st) by done. cbv zeta.
      eexists _, _. simpl. rewrite Hrep. split; [done |]. split; [done |].
      by apply prefix_app_r.
    + unfold Native.Publish. rewrite Hvu, Native_publishMessage_no_state.
      eexists _, _. simpl. split; [done |]. split; done.
  - destruct (Native.State (Native.vu nps)) as [st |] eqn:Hvu.
    + rewrite (Native_PublishWithAttributes_state nps st) by done. cbv zeta.
      eexists _, _. simpl. rewrite Hrep. split; [done |]. split; [done |].
      by apply prefix_app_r.
    + unfold Native.PublishWithAttributes. rewrite Hvu, Native_publishMessage_no_state.
      eexists _, _. simpl. split; [done |]. split; done.
Qed.

End Publishing.

(** ** Further properties of the decoder as [Publisher] drives it *)

Lemma fold_ascii_lower (sr tr : ascii) :
  fold_ascii sr tr = true ↔ lowerZ (byte_of sr) = lowerZ (byte_of tr).
Proof.
  unfold fold_ascii, lowerZ.
  set (a := byte_of sr). set (b := byte_of tr).
  rewrite orb_true_iff, !andb_true_iff, !Z.eqb_eq, !Z.leb_le.
  destruct ((65 <=? a) && (a <=? 90)) eqn:Ha, ((65 <=? b) && (b <=? 90)) eqn:Hb;
    rewrite ?andb_true_iff, ?andb_false_iff, ?Z.leb_le, ?Z.leb_gt in Ha, Hb; lia.
Qed.

Lemma EqualFold_lower (s t : string) :
  is_ascii s = true → EqualFold s t = true ↔ lower s = lower t.
Proof.
  revert s. induction t as [| tr t IH]; intros [| sr s] Hs; simpl; try done.
  unfold is_ascii in Hs. simpl in Hs. apply andb_true_iff in Hs as [Hsr Hs].
  rewrite Hsr, andb_true_iff, fold_ascii_lower, (IH s Hs). unfold lower.
  cbn [List.map list_ascii_of_string].
  split; [intros [-> ->]; done | intros H; by injection H].
Qed.

Lemma MapIndex_Some_elem (f : string) (config : Config) (v : value) :
  MapIndex f config = Some v → (f, v) ∈ config.
Proof.
  induction config as [| [k v'] config IH]; simpl; [done |].
  destruct (String.eqb k f) eqn:Hk.
  - apply String.eqb_eq in Hk as ->. intros [= ->]. left.
  - intros H. right. by apply IH.
Qed.

Lemma keys_NoDup_value (config : Config) (k : string) (v1 v2 : value) :
  NoDup (config.*1) → (k, v1) ∈ config → (k, v2) ∈ config → v1 = v2.
Proof.
  induction config as [| [k' v'] config IH]; simpl; intros Hnd H1 H2.
  - by apply elem_of_nil in H1.
  - apply NoDup_cons in Hnd as [Hk Hnd].
    apply elem_of_cons in H1 as [H1 | H1], H2 as [H2 | H2].
    + congruence.
    + injection H1 as -> ->. exfalso. apply Hk.
      apply list_elem_of_fmap. by exists (k', v2).
    + injection H2 as -> ->. exfalso. apply Hk.
      apply list_elem_of_fmap. by exists (k', v1).
    + by apply IH.
Qed.

Lemma MapIndex_elem (f : string) (config : Config) (v : value) :
  NoDup (config.*1) → (f, v) ∈ config → MapIndex f config = Some v.
Proof.
  intros Hnd Hin. destruct (MapIndex f config) as [v' |] eqn:Hm.
  - f_equal. apply (keys_NoDup_value config f); [done | | done].
    by apply MapIndex_Some_elem.
  - exfalso. clear Hnd. induction config as [| [k v''] config IH]; simpl in *.
    + by apply elem_of_nil in Hin.
    + destruct (String.eqb k f) eqn:Hk; [done |].
      apply elem_of_cons in Hin as [Hin | Hin]; [| by apply IH].
      injection Hin as -> ->. by rewrite String.eqb_refl in Hk.
Qed.

Lemma foldSearch_Some_elem (f : string) (config : Config) (v : value) :
  foldSearch f config = Some v → ∃ k, (k, v) ∈ config ∧ EqualFold k f = true.
Proof.
  induction config as [| [k v'] config IH]; simpl; [done |].
  destruct (EqualFold k f) eqn:Hk.
  - intros [= ->]. exists k. split; [left | done].
  - intros H. destruct (IH H) as (k' & Hin & Hf). exists k'. split; [by right | done].
Qed.

Lemma foldSearch_None_elem (f : string) (config : Config) (k : string) (v : value) :
  foldSearch f config = None → (k, v) ∈ config → EqualFold k f = false.
Proof.
  induction config as [| [k' v'] config IH]; simpl; intros Hn Hin.
  - by apply elem_of_nil in Hin.
  - destruct (EqualFold k' f) eqn:Hk; [done |].
    apply elem_of_cons in Hin as [Hin | Hin]; [by injection Hin as -> -> | by apply IH].
Qed.

Lemma MapIndex_perm (f : string) (c1 c2 : Config) :
  c1 ≡ₚ c2 → NoDup (c1.*1) → MapIndex f c1 = MapIndex f c2.
Proof.
  intros Hp Hnd.
  assert (NoDup (c2.*1)) as Hnd2 by by rewrite <- Hp.
  destruct (MapIndex f c1) as [v |] eqn:H1.
  - symmetry. apply MapIndex_elem; [done |]. rewrite <- Hp. by apply MapIndex_Some_elem.
  - destruct (MapIndex f c2) as [v |] eqn:H2; [| done].
    apply MapIndex_Some_elem in H2. rewrite <- Hp in H2.
    apply (MapIndex_elem f c1 v Hnd) in H2. congruence.
Qed.

Lemma foldSearch_perm (f : string) (c1 c2 : Config) :
  c1 ≡ₚ c2 → NoDup (c1.*1) →
  (∀ k1 v1 k2 v2, (k1, v1) ∈ c1 → (k2, v2) ∈ c1 →
     EqualFold k1 f = true → EqualFold k2 f = true → k1 = k2) →
  foldSearch f c1 = foldSearch f c2.
Proof.
  intros Hp Hnd Huniq.
  destruct (foldSearch f c1) as [v1 |] eqn:H1, (foldSearch f c2) as [v2 |] eqn:H2;
    [| | | done].
  - apply foldSearch_Some_elem in H1 as (k1 & Hin1 & Hf1).
    apply foldSearch_Some_elem in H2 as (k2 & Hin2 & Hf2).
    rewrite <- Hp in Hin2.
    assert (k1 = k2) as -> by eauto.
    f_equal. by apply (keys_NoDup_value c1 k2).
  - apply foldSearch_Some_elem in H1 as (k1 & Hin1 & Hf1).
    rewrite Hp in Hin1. rewrite (foldSearch_None_elem f c2 k1 v1 H2 Hin1) in Hf1. done.
  - apply foldSearch_Some_elem in H2 as (k2 & Hin2 & Hf2).
    rewrite <- Hp in Hin2. rewrite (foldSearch_None_elem f c1 k2 v2 H1 Hin2) in Hf2. done.
Qed.

Lemma rawMapVal_perm (f : string) (c1 c2 : Config) :
  f ∈ fieldNames → c1 ≡ₚ c2 → NoDup (c1.*1) → unambiguous c1 →
  rawMapVal f c1 = rawMapVal f c2.
Proof.
  intros Hf Hp Hnd Hu. unfold rawMapVal.
  rewrite <- (MapIndex_perm f c1 c2 Hp Hnd).
  destruct (MapIndex f c1) as [v |] eqn:Hm; [done |].
  destruct (Hu f Hf) as [[v Hv] | Huniq]; [congruence |].
  by apply foldSearch_perm.
Qed.


Section Decoding.
Context {WB : Watermill.Backend} {NB : Native.Backend}.

(** X8. The result does not depend on the order in which Go ranges over
    the configuration map, as long as no field has to choose between
    keys: for a map with distinct keys in which every field has a key
    equal to its name or at most one key equal to it under case
    folding, any reordering of the entries decodes to the same record
    and error, and [Publisher] runs the same. *)
Theorem Decode_order_independent (c1 c2 : Config)
    (wps : Watermill.PubSub) (nps : Native.PubSub)
    (w : Watermill.W) (w' : Native.W) :
  c1 ≡ₚ c2 → NoDup (c1.*1) → unambiguous c1 →
  Decode c1 zeroConf = Decode c2 zeroConf
  ∧ Watermill.Publisher wps c1 w = Watermill.Publisher wps c2 w
  ∧ Native.Publisher nps c1 w' = Native.Publisher nps c2 w'.
Proof.
  intros Hp Hnd Hu.
  assert (Decode c1 zeroConf = Decode c2 zeroConf) as Hdec.
  { apply Decode_ext. intros f Hf. by apply rawMapVal_perm. }
  unfold Watermill.Publisher, Native.Publisher. by rewrite Hdec.
Qed.


(** X10. All parameters are optional, and nil counts as absent: a
    configuration in which every field has no entry or a nil one
    decodes without error to the zero record, and [Publisher] runs on it
    as on the empty map. *)
Theorem Publisher_nil_entries_as_empty (config : Config)
    (wps : Watermill.PubSub) (nps : Native.PubSub)
    (w : Watermill.W) (w' : Native.W) :
  (∀ f, f ∈ fieldNames → rawMapVal f config = None ∨ rawMapVal f config = Some VNil) →
  Decode config zeroConf = (zeroConf, None)
  ∧ Watermill.Publisher wps config w = Watermill.Publisher wps [] w
  ∧ Native.Publisher nps config w' = Native.Publisher nps [] w'.
Proof.
  intros H.
  assert (Decode config zeroConf = (zeroConf, None)) as Hdec.
  { apply Forall_forall in H. unfold fieldNames in H.
    repeat match goal with
           | Hall : Forall _ (_ :: _) |- _ =>
               let Hf := fresh "Hf" in apply Forall_cons in Hall as [Hf Hall]
           end.
    unfold Decode, decodeField.
    repeat match goal with
           | Hf : _ ∨ _ |- _ => destruct Hf as [-> | ->]
           end;
      reflexivity. }
  unfold Watermill.Publisher, Native.Publisher. by rewrite Hdec.
Qed.

(** X11. Keys are matched without regard to the case of ASCII letters:
    in a configuration whose keys are ASCII, a field has an entry
    exactly when some key equals the field's name once the upper-case
    letters of both are lowered. *)
Theorem field_entry_iff_key_matches (config : Config) (f : string) :
  Forall (fun kv => is_ascii kv.1 = true) config →
  (is_Some (rawMapVal f config) ↔ ∃ k v, (k, v) ∈ config ∧ lower k = lower f).
Proof.
  intros Hascii. rewrite Forall_forall in Hascii. unfold rawMapVal. split.
  - destruct (MapIndex f config) as [v |] eqn:Hm.
    + intros _. exists f, v. split; [by apply MapIndex_Some_elem | done].
    + intros [v Hv]. apply foldSearch_Some_elem in Hv as (k & Hin & Hf).
      exists k, v. split; [done |].
      apply EqualFold_lower; [| done]. by apply (Hascii (k, v)).
  - intros (k & v & Hin & Hl).
    destruct (MapIndex f config) as [v' |]; [done |].
    destruct (foldSearch f config) as [v' |] eqn:Hs; [done |].
    pose proof (foldSearch_None_elem f config k v Hs Hin) as Hf.
    assert (EqualFold k f = true) as Ht.
    { apply EqualFold_lower; [| done]. by apply (Hascii (k, v)). }
    congruence.
Qed.

(** X12. An entry under the exact name of a field is the one decoded,
    whatever other spellings of the key the map holds and in whatever
    order they are visited: the timeout and the credentials under their
    exact names are the ones [Publisher] works with. *)
Theorem exact_key_wins (config : Config) (f : string) (v : value) :
  NoDup (config.*1) → (f, v) ∈ config →
  rawMapVal f config = Some v
  ∧ (∀ n, f = "PublishTimeout" → v = VInt n → int64_range n →
       PublishTimeout (Decode config zeroConf).1 = n)
  ∧ (∀ s, f = "Credentials" → v = VString s →
       Credentials (Decode config zeroConf).1 = s).
Proof.
  intros Hnd Hin.
  assert (rawMapVal f config = Some v) as Hraw.
  { unfold rawMapVal. by rewrite (MapIndex_elem f config v Hnd Hin). }
  split; [done |]. split.
  - intros n -> -> Hn. rewrite Decode_PublishTimeout, Hraw. simpl. by apply wrap64_id.
  - intros s -> ->. by rewrite Decode_Credentials, Hraw.
Qed.

End Decoding.

(** ** The further properties on the mock collaborators *)

Lemma Publisher_returns_client_witness :
  Decode [("projectID", VString "p")] zeroConf = (mkConf "p" "" 0 false false false, None)
  ∧ (Watermill.Publisher (B := Mock.watermill) Watermill.new_PubSub
       [("projectID", VString "p")] (Mock.world Mock.up)).1
    = Returned (Watermill.Build_googlecloud_Publisher 1).
Proof.
  split; [reflexivity |].
  pose proof (@Publisher_returns_client Mock.watermill Mock.native
                [("projectID", VString "p")] (mkConf "p" "" 0 false false false)
                Watermill.new_PubSub Mock.init_ps
                (Mock.world Mock.up) (Mock.world Mock.up) eq_refl) as H.
  cbv zeta in H. destruct H as [H _]. rewrite (H eq_refl). reflexivity.
Defined.

Lemma Watermill_Publisher_forwards_fields_witness :
  Decode [("projectID", VString "p"); ("trace", VBool true)] zeroConf
  = (mkConf "p" "" 0 false true false, None)
  ∧ ∃ pc lg,
      calls (Watermill.Publisher (B := Mock.watermill) Watermill.new_PubSub
               [("projectID", VString "p"); ("trace", VBool true)]
               (Mock.world Mock.up)).2
      = [] ++ [Watermill.NewPublisher_call pc lg]
      ∧ Watermill.PublisherConfig.ProjectID pc = "p"
      ∧ Watermill.PublisherConfig.DoNotCreateTopicIfMissing pc = false
      ∧ Watermill.PublisherConfig.Marshaler pc = Watermill.DefaultMarshalerUnmarshaler
      ∧ Watermill.debug lg = false
      ∧ Watermill.trace lg = true.
Proof.
  split; [reflexivity |].
  exact (@Watermill_Publisher_forwards_fields Mock.watermill
           [("projectID", VString "p"); ("trace", VBool true)]
           (mkConf "p" "" 0 false true false)
           Watermill.new_PubSub (Mock.world Mock.up) eq_refl).
Defined.

Lemma Native_Publisher_reads_three_fields_witness :
  Decode [("debug", VBool true)] zeroConf = (mkConf "" "" 0 true false false, None)
  ∧ Decode [] zeroConf = (zeroConf, None)
  ∧ Native.Publisher (B := Mock.native) Mock.init_ps [("debug", VBool true)]
      (Mock.world Mock.up)
    = Native.Publisher (B := Mock.native) Mock.init_ps [] (Mock.world Mock.up).
Proof.
  split; [reflexivity |]. split; [reflexivity |].
  exact (proj1 (@Native_Publisher_reads_three_fields Mock.native
                  [("debug", VBool true)] [] (mkConf "" "" 0 true false false) zeroConf
                  Mock.init_ps (Mock.world Mock.up)
                  eq_refl eq_refl eq_refl eq_refl eq_refl)).
Defined.

Lemma Publisher_duration_exact_iff_witness :
  Decode [("publishTimeout", VInt 30)] zeroConf
  = (mkConf "" "" 30 false false false, None)
  ∧ ∃ secs d,
      secs = PublishTimeout (defaultTimeout (mkConf "" "" 30 false false false))
      ∧ 1 <= secs < 2 ^ 63
      ∧ (d = secs * 1000000000 ↔ secs <= 9223372036).
Proof.
  split; [reflexivity |].
  destruct (@Publisher_duration_exact_iff Mock.watermill Mock.native
              [("publishTimeout", VInt 30)] (mkConf "" "" 30 false false false)
              Watermill.new_PubSub Mock.init_ps
              (Mock.world Mock.up) (Mock.world Mock.up) eq_refl)
    as (secs & d & H1 & H2 & H3 & _).
  exists secs, d. split; [exact H1 |]. split; [exact H2 | exact H3].
Defined.

Lemma Decode_order_independent_witness :
  [("publishtimeout", VInt 9); ("Debug", VBool true)]
  ≡ₚ [("Debug", VBool true); ("publishtimeout", VInt 9)]
  ∧ NoDup ([("publishtimeout", VInt 9); ("Debug", VBool true)].*1)
  ∧ unambiguous [("publishtimeout", VInt 9); ("Debug", VBool true)]
  ∧ Decode [("publishtimeout", VInt 9); ("Debug", VBool true)] zeroConf
    = Decode [("Debug", VBool true); ("publishtimeout", VInt 9)] zeroConf.
Proof.
  assert ([("publishtimeout", VInt 9); ("Debug", VBool true)]
          ≡ₚ [("Debug", VBool true); ("publishtimeout", VInt 9)]) as Hp
    by apply Permutation_swap.
  assert (NoDup ([("publishtimeout", VInt 9); ("Debug", VBool true)].*1)) as Hnd.
  { simpl. apply NoDup_cons. split; [| apply NoDup_singleton].
    intros Hin. apply list_elem_of_singleton in Hin. discriminate. }
  assert (unambiguous [("publishtimeout", VInt 9); ("Debug", VBool true)]) as Hu.
  { intros f Hf. unfold fieldNames in Hf.
    repeat (apply elem_of_cons in Hf as [-> | Hf]);
      [| | | left; by eexists | | | by apply elem_of_nil in Hf];
      right; intros k1 v1 k2 v2 H1 H2 E1 E2;
      apply elem_of_cons in H1 as [H1 | H1%list_elem_of_singleton];
      apply elem_of_cons in H2 as [H2 | H2%list_elem_of_singleton];
      injection H1 as -> ->; injection H2 as -> ->;
      first [reflexivity | discriminate E1 | discriminate E2]. }
  split; [exact Hp |]. split; [exact Hnd |]. split; [exact Hu |].
  exact (proj1 (@Decode_order_independent Mock.watermill Mock.native _ _
                  Watermill.new_PubSub Mock.init_ps
                  (Mock.world Mock.up) (Mock.world Mock.up) Hp Hnd Hu)).
Defined.

Lemma Publisher_nil_entries_as_empty_witness :
  Decode [("publishTimeout", VNil); ("retries", VInt 3)] zeroConf = (zeroConf, None).
Proof.
  refine (proj1 (@Publisher_nil_entries_as_empty Mock.watermill Mock.native
                   [("publishTimeout", VNil); ("retries", VInt 3)]
                   Watermill.new_PubSub Mock.init_ps
                   (Mock.world Mock.up) (Mock.world Mock.up) _)).
  intros f Hf. unfold fieldNames in Hf.
  repeat (apply elem_of_cons in Hf as [-> | Hf]);
    [left | left | right | left | left | left | by apply elem_of_nil in Hf];
    reflexivity.
Defined.

Lemma field_entry_iff_key_matches_witness :
  Forall (fun kv : string * value => is_ascii kv.1 = true) [("PUBLISHTIMEOUT", VInt 3)]
  ∧ (is_Some (rawMapVal "PublishTimeout" [("PUBLISHTIMEOUT", VInt 3)])
     ↔ ∃ k v, (k, v) ∈ [("PUBLISHTIMEOUT", VInt 3)] ∧ lower k = lower "PublishTimeout").
Proof.
  assert (Forall (fun kv : string * value => is_ascii kv.1 = true)
            [("PUBLISHTIMEOUT", VInt 3)]) as Hall
    by (constructor; [reflexivity | constructor]).
  split; [exact Hall |].
  exact (field_entry_iff_key_matches [("PUBLISHTIMEOUT", VInt 3)] "PublishTimeout" Hall).
Defined.

Lemma exact_key_wins_witness :
  NoDup ([("publishtimeout", VInt 9); ("PublishTimeout", VInt 3)].*1)
  ∧ ("PublishTimeout", VInt 3) ∈ [("publishtimeout", VInt 9); ("PublishTimeout", VInt 3)]
  ∧ PublishTimeout
      (Decode [("publishtimeout", VInt 9); ("PublishTimeout", VInt 3)] zeroConf).1 = 3.
Proof.
  assert (NoDup ([("publishtimeout", VInt 9); ("PublishTimeout", VInt 3)].*1)) as Hnd.
  { simpl. apply NoDup_cons. split; [| apply NoDup_singleton].
    intros Hin. apply list_elem_of_singleton in Hin. discriminate. }
  assert (("PublishTimeout", VInt 3)
          ∈ [("publishtimeout", VInt 9); ("PublishTimeout", VInt 3)]) as Hin
    by (right; left).
  split; [exact Hnd |]. split; [exact Hin |].
  destruct (exact_key_wins _ "PublishTimeout" (VInt 3) Hnd Hin) as (_ & H & _).
  apply (H 3 eq_refl eq_refl). unfold int64_range. lia.
Defined.
